(** * Lifecycle supervisor of [src/server.js] (class MinecraftCrossplayServer)

    A shallow embedding of the part of the class that owns the child
    process: the fields [minecraftProcess], [serverStatus], [startTime],
    [serverReady], [restartAttempts], [memoryMonitorInterval], the methods
    [startMinecraftServer], [stopMinecraftServer], [executeCommand],
    [startMemoryMonitoring], [stopMemoryMonitoring], the four listeners that
    [startMinecraftServer] installs on the child, the routes [/status],
    [/start], [/stop], [/command] and the two signal handlers.

    Conventions of the model.
    - A JS string is a [string]; one character stands for one code unit.
    - The child process object returned by [spawn] is identified by the
      number of the spawn that created it ([Pid]).
    - There are two clocks.  Timers run on the clock of the event loop,
      which only moves forward ([now]); [Date.now()] reads the clock of the
      host ([date]), which moves with it and can also be set, forward or
      back.  Both count whole milliseconds.
    - [setTimeout]/[setInterval] registrations are kept in a list of pending
      timers inside the world; a callback is a constructor of [Callback].
      The source never calls [clearTimeout]; [clearInterval] removes the
      interval from the list.
    - Calls on the outside world ([spawn], [stdin.write], [kill], [exec],
      [res.json], [process.exit]) are recorded as a list of [Effect]s.
      Whether a [stdin.write] throws is chosen by the environment and comes
      with the event as a boolean.  A route handler that throws is recorded
      as [EThrow]; what Express answers then is not part of the file.
    - The [command] of a POST /command is any JSON value or [undefined]; it
      is given by the three readings the code makes of it ([JsValue]).
    - Console output is not modelled. *)


From Stdlib Require Import Bool Arith ZArith List String Ascii Lia.
From Stdlib Require Import DecimalString DecimalN DecimalPos.
Import ListNotations.
Open Scope string_scope.
Open Scope list_scope.
Open Scope nat_scope.

(* ------------------------------------------------------------------ *)
(** ** Strings: [String.prototype.includes] and [String.prototype.trim] *)

Module JsString.

(** [needle] is a prefix of [hay]. *)
Fixpoint starts_with (needle hay : string) : bool :=
  match needle with
  | EmptyString => true
  | String a n =>
      match hay with
      | EmptyString => false
      | String b h => Ascii.eqb a b && starts_with n h
      end
  end.

(** [hay.includes(needle)]. *)
Fixpoint includes (needle hay : string) : bool :=
  starts_with needle hay ||
  match hay with
  | EmptyString => false
  | String _ h => includes needle h
  end.

(** White space and line terminators stripped by [trim], among the code
    units a [string] character can hold: TAB, LF, VT, FF, CR, SP, NBSP. *)
Definition is_space (c : ascii) : bool :=
  let n := nat_of_ascii c in
  ((9 <=? n) && (n <=? 13)) || (n =? 32) || (n =? 160).

Fixpoint trimStart (s : string) : string :=
  match s with
  | EmptyString => EmptyString
  | String c t => if is_space c then trimStart t else s
  end.

Definition is_empty (s : string) : bool :=
  match s with EmptyString => true | String _ _ => false end.

Fixpoint trimEnd (s : string) : string :=
  match s with
  | EmptyString => EmptyString
  | String c t =>
      let t' := trimEnd t in
      if is_space c && is_empty t' then EmptyString else String c t'
  end.

Definition trim (s : string) : string := trimEnd (trimStart s).

(** Last character of a string, if any. *)
Fixpoint last_char (s : string) : option ascii :=
  match s with
  | EmptyString => None
  | String c EmptyString => Some c
  | String _ t => last_char t
  end.

Definition first_char (s : string) : option ascii :=
  match s with EmptyString => None | String c _ => Some c end.

(** A needle that begins and ends with a character that is not white
    space. *)
Definition solid (needle : string) : Prop :=
  (exists a, first_char needle = Some a /\ is_space a = false) /\
  (exists z, last_char needle = Some z /\ is_space z = false).

End JsString.

Import JsString.

(* ------------------------------------------------------------------ *)
(** ** Data model *)

(** The four values ever assigned to [this.serverStatus]. *)
Inductive Status := Offline | Starting | Online | Stopping.

Definition status_string (s : Status) : string :=
  match s with
  | Offline => "offline"
  | Starting => "starting"
  | Online => "online"
  | Stopping => "stopping"
  end.

Definition status_eqb (a b : Status) : bool :=
  match a, b with
  | Offline, Offline | Starting, Starting
  | Online, Online | Stopping, Stopping => true
  | _, _ => false
  end.

Definition Pid := nat.
Definition TimerId := nat.

(** The fields of [this] that the lifecycle code reads and writes, with the
    values the constructor gives them in [init_supervisor]. *)
Record Supervisor := mkSupervisor {
  minecraftProcess : option Pid;        (* null, or the child of spawn *)
  serverStatus : Status;
  startTime : option Z;                 (* null, or Date.now() in ms *)
  serverReady : bool;
  restartAttempts : nat;
  memoryMonitorInterval : option TimerId
}.

Definition init_supervisor : Supervisor :=
  {| minecraftProcess := None;
     serverStatus := Offline;
     startTime := None;
     serverReady := false;
     restartAttempts := 0;
     memoryMonitorInterval := None |}.

(** The closures the lifecycle code hands to [setTimeout]/[setInterval]. *)
Inductive Callback :=
| CbDisplayInfo    (* () => this.displayConnectionInfo(), after 1000 *)
| CbMemorySample   (* body of the interval of startMemoryMonitoring *)
| CbRelaunch       (* () => { this.startMinecraftServer(); }, after 30000 *)
| CbForceKill      (* body of the timeout of stopMinecraftServer, 15000 *)
| CbExit.          (* () => process.exit(0), after 5000 *)

Definition callback_eqb (a b : Callback) : bool :=
  match a, b with
  | CbDisplayInfo, CbDisplayInfo | CbMemorySample, CbMemorySample
  | CbRelaunch, CbRelaunch | CbForceKill, CbForceKill
  | CbExit, CbExit => true
  | _, _ => false
  end.

Record Timer := mkTimer {
  tid : TimerId;
  due : N;                   (* earliest time in ms at which it may run *)
  period : option N;         (* Some p for setInterval, None for setTimeout *)
  callback : Callback
}.

Inductive Signal := SIGTERM | SIGKILL.

(** Bodies passed to [res.json].  [StatusReply] keeps the fields of the
    [/status] answer that come from the supervisor. *)
Inductive Response :=
| StatusReply (status : string) (running ready : bool) (uptime : Z)
| Reply (success : bool) (message : string) (status : option string).

Inductive Effect :=
| ESpawn (p : Pid)                        (* spawn('java', javaArgs, ...) *)
| EStdinWrite (p : Pid) (text : string)   (* p.stdin.write(text) *)
| EKill (p : Pid) (sig : Signal)          (* p.kill(sig) *)
| EExecPs (p : Pid)                       (* exec(`ps -p ${p.pid} ...`) *)
| ERespond (r : Response)                 (* res.json(r) *)
| EThrow                                  (* the handler throws to Express *)
| EExit (code : nat).                     (* process.exit(code) *)

(** The supervisor together with what the runtime keeps for it. *)
Record World := mkWorld {
  sup : Supervisor;
  now : N;                    (* the clock of the timers, in ms *)
  date : Z;                   (* Date.now(), the clock of the host, in ms *)
  nextPid : Pid;              (* number of children spawned so far *)
  alive : list Pid;           (* children that have not emitted 'close' *)
  nextTimer : TimerId;
  timers : list Timer;        (* pending timeouts and armed intervals *)
  halted : bool               (* process.exit has been called *)
}.

Definition init (t0 : N) (d0 : Z) : World :=
  {| sup := init_supervisor; now := t0; date := d0; nextPid := 0; alive := [];
     nextTimer := 0; timers := []; halted := false |}.

(* ------------------------------------------------------------------ *)
(** ** Actions: a world transformer that also records effects *)

Definition Act := World -> World * list Effect.

Definition skip : Act := fun w => (w, []).

Definition seq (a b : Act) : Act :=
  fun w => let (w1, e1) := a w in
           let (w2, e2) := b w1 in (w2, e1 ++ e2).

Notation "a ;; b" := (seq a b) (at level 61, right associativity).

Definition emit (e : Effect) : Act := fun w => (w, [e]).

Definition with_sup (s : Supervisor) (w : World) : World :=
  {| sup := s; now := now w; date := date w; nextPid := nextPid w; alive := alive w;
     nextTimer := nextTimer w; timers := timers w; halted := halted w |}.

Definition with_timers (n : TimerId) (l : list Timer) (w : World) : World :=
  {| sup := sup w; now := now w; date := date w; nextPid := nextPid w; alive := alive w;
     nextTimer := n; timers := l; halted := halted w |}.

(** Assignment to fields of [this]. *)
Definition modify (f : Supervisor -> Supervisor) : Act :=
  fun w => (with_sup (f (sup w)) w, []).

(** [setTimeout(cb, ms)]; the returned handle is dropped by every caller. *)
Definition setTimeout (cb : Callback) (ms : N) : Act :=
  fun w =>
    (with_timers (S (nextTimer w))
       (timers w ++ [mkTimer (nextTimer w) (now w + ms)%N None cb]) w, []).

(** [clearInterval(i)]. *)
Definition clearInterval (i : TimerId) : Act :=
  fun w =>
    (with_timers (nextTimer w)
       (filter (fun t => negb (tid t =? i)) (timers w)) w, []).

Definition nl : string := String (ascii_of_nat 10) EmptyString.
Definition dquote : string := String (ascii_of_nat 34) EmptyString.

(** The two substrings tested by the stdout listener. *)
Definition marker_done : string := "Done (".
Definition marker_help : string :=
  ("For help, type " ++ dquote ++ "help" ++ dquote)%string.

(* ------------------------------------------------------------------ *)
(** ** The methods of the class *)

(** [spawn('java', javaArgs, {...})]: the runtime creates a child object;
    a failure to launch is reported later through the 'error' event. *)
Definition spawn : Act :=
  fun w =>
    let p := nextPid w in
    ({| sup := {| minecraftProcess := Some p;
                  serverStatus := serverStatus (sup w);
                  startTime := startTime (sup w);
                  serverReady := serverReady (sup w);
                  restartAttempts := restartAttempts (sup w);
                  memoryMonitorInterval := memoryMonitorInterval (sup w) |};
        now := now w; date := date w; nextPid := S p; alive := alive w ++ [p];
        nextTimer := nextTimer w; timers := timers w; halted := halted w |},
     [ESpawn p]).

(** [startMemoryMonitoring()]: the interval handle is stored in
    [this.memoryMonitorInterval], whatever the field held before. *)
Definition startMemoryMonitoring : Act :=
  fun w =>
    let i := nextTimer w in
    ({| sup := {| minecraftProcess := minecraftProcess (sup w);
                  serverStatus := serverStatus (sup w);
                  startTime := startTime (sup w);
                  serverReady := serverReady (sup w);
                  restartAttempts := restartAttempts (sup w);
                  memoryMonitorInterval := Some i |};
        now := now w; date := date w; nextPid := nextPid w; alive := alive w;
        nextTimer := S i;
        timers := timers w ++ [mkTimer i (now w + 60000)%N (Some 60000%N) CbMemorySample];
        halted := halted w |},
     []).

(** [stopMemoryMonitoring()]. *)
Definition stopMemoryMonitoring : Act :=
  fun w =>
    match memoryMonitorInterval (sup w) with
    | Some i =>
        (clearInterval i ;;
         modify (fun s =>
           {| minecraftProcess := minecraftProcess s;
              serverStatus := serverStatus s;
              startTime := startTime s;
              serverReady := serverReady s;
              restartAttempts := restartAttempts s;
              memoryMonitorInterval := None |})) w
    | None => skip w
    end.

(** [startMinecraftServer()] up to the installation of the listeners; the
    listeners themselves are [on_stdout], [on_stderr], [on_error] and
    [on_close] below. *)
Definition startMinecraftServer : Act :=
  fun w =>
    match minecraftProcess (sup w) with
    | Some _ => skip w                      (* 'Server already running' *)
    | None =>
        (modify (fun s =>
           {| minecraftProcess := minecraftProcess s;
              serverStatus := Starting;
              startTime := Some (date w);
              serverReady := false;
              restartAttempts := restartAttempts s;
              memoryMonitorInterval := memoryMonitorInterval s |}) ;;
         spawn) w
    end.

(** Listener of [stdout.on('data')]. *)
Definition is_ready_line (message : string) : bool :=
  includes marker_done message && includes marker_help message.

Definition on_stdout (data : string) : Act :=
  let message := trim data in
  if is_ready_line message then
    modify (fun s =>
      {| minecraftProcess := minecraftProcess s;
         serverStatus := Online;
         startTime := startTime s;
         serverReady := true;
         restartAttempts := 0;
         memoryMonitorInterval := memoryMonitorInterval s |}) ;;
    startMemoryMonitoring ;;
    setTimeout CbDisplayInfo 1000%N
  else skip.

(** Listener of [stderr.on('data')]: it only prints. *)
Definition on_stderr (data : string) : Act := skip.

(** Listener of the child's 'error' event. *)
Definition on_error : Act :=
  modify (fun s =>
    {| minecraftProcess := minecraftProcess s;
       serverStatus := Offline;
       startTime := None;
       serverReady := false;
       restartAttempts := restartAttempts s;
       memoryMonitorInterval := memoryMonitorInterval s |}).

Definition set_restartAttempts (n : nat) : Act :=
  modify (fun s =>
    {| minecraftProcess := minecraftProcess s;
       serverStatus := serverStatus s;
       startTime := startTime s;
       serverReady := serverReady s;
       restartAttempts := n;
       memoryMonitorInterval := memoryMonitorInterval s |}).

(** [code !== 0], where [code] is null when a signal ended the child. *)
Definition code_is_zero (code : option Z) : bool :=
  match code with
  | Some c => (c =? 0)%Z
  | None => false
  end.

(** Listener of the child's 'close' event. *)
Definition on_close (code : option Z) : Act :=
  modify (fun s =>
    {| minecraftProcess := None;
       serverStatus := Offline;
       startTime := None;
       serverReady := false;
       restartAttempts := restartAttempts s;
       memoryMonitorInterval := memoryMonitorInterval s |}) ;;
  stopMemoryMonitoring ;;
  (fun w =>
     if negb (code_is_zero code) then
       if restartAttempts (sup w) <? 2 then
         (set_restartAttempts (S (restartAttempts (sup w))) ;;
          setTimeout CbRelaunch 30000%N) w
       else skip w
     else set_restartAttempts 0 w).

(** [stopMinecraftServer()]; [write_ok = false] when [stdin.write] throws. *)
Definition stopMinecraftServer (write_ok : bool) : Act :=
  fun w =>
    match minecraftProcess (sup w) with
    | Some p =>
        (modify (fun s =>
           {| minecraftProcess := minecraftProcess s;
              serverStatus := Stopping;
              startTime := startTime s;
              serverReady := serverReady s;
              restartAttempts := restartAttempts s;
              memoryMonitorInterval := memoryMonitorInterval s |}) ;;
         stopMemoryMonitoring ;;
         emit (EStdinWrite p ("stop" ++ nl)%string) ;;
         (if write_ok then skip else emit (EKill p SIGTERM)) ;;
         setTimeout CbForceKill 15000%N) w
    | None => skip w
    end.

(** An environment variable read through [process.env]: [None] when it is
    not set; the empty string is falsy as well. *)
Definition truthy (variable : option string) : bool :=
  match variable with
  | Some s => negb (is_empty s)
  | None => false
  end.

(** The value of [req.body.command]: any JSON value, or [undefined] when
    the body has no such key.  The route and [executeCommand] read three
    things of it and nothing else: whether it is truthy ([!command]),
    whether [command.length < 100], and its text [`${command}`].  The
    comparison and the conversion to text throw a TypeError on an object
    that cannot be converted to a primitive value (one whose own
    [toString] and [valueOf] keys hold JSON values), which is [None]
    here. *)
Record JsValue := mkJsValue {
  is_truthy : bool;                  (* !command is false *)
  length_below_100 : option bool;    (* command.length < 100 *)
  template : option string           (* `${command}` *)
}.


Definition js_null : JsValue :=
  {| is_truthy := false; length_below_100 := None; template := Some "null" |}.



(** A string: falsy when empty; [length] is its number of code units. *)
Definition js_string (s : string) : JsValue :=
  {| is_truthy := negb (is_empty s);
     length_below_100 := Some (String.length s <? 100);
     template := Some s |}.


(** An object with no key [length], [toString] or [valueOf]. *)
Definition js_object : JsValue :=
  {| is_truthy := true; length_below_100 := Some false;
     template := Some "[object Object]" |}.

(** How a call ends. *)
Inductive Completion := Returned | Thrown.

(** [executeCommand(command)].  The test is outside the [try]: when the
    comparison throws, the method throws.  The conversion to text and the
    [stdin.write] are inside it: what they throw is caught and only
    printed, so [write_ok] changes nothing here. *)
Definition executeCommand (write_ok : bool) (command : JsValue)
    (w : World) : (World * list Effect) * Completion :=
  match minecraftProcess (sup w) with
  | Some p =>
      if serverReady (sup w) && is_truthy command then
        match length_below_100 command with
        | Some true =>
            match template command with
            | Some text => (emit (EStdinWrite p (text ++ nl)%string) w, Returned)
            | None => (skip w, Returned)
            end
        | Some false => (skip w, Returned)
        | None => (skip w, Thrown)
        end
      else (skip w, Returned)
  | None => (skip w, Returned)
  end.

(* ------------------------------------------------------------------ *)
(** ** The routes of [setupRoutes] and the signal handlers of [start] *)

Definition is_some {A} (o : option A) : bool :=
  match o with Some _ => true | None => false end.

(** [this.startTime ? Math.floor((Date.now() - this.startTime) / 1000) : 0]:
    a start time of 0 is falsy; the difference is negative when the clock
    of the host was set back since the start, and [Math.floor] then rounds
    down, as the division of [Z] does.  The readings are whole numbers of
    milliseconds; on readings less than 2^52 apart the subtraction and the
    division of JavaScript give this very result. *)
Definition uptime (w : World) : Z :=
  match startTime (sup w) with
  | Some t => if (t =? 0)%Z then 0%Z else ((date w - t) / 1000)%Z
  | None => 0%Z
  end.

(** GET /status *)
Definition status_route : Act :=
  fun w =>
    emit (ERespond (StatusReply (status_string (serverStatus (sup w)))
                                (is_some (minecraftProcess (sup w)))
                                (serverReady (sup w))
                                (uptime w))) w.

(** POST /start *)
Definition start_route : Act :=
  fun w =>
    if status_eqb (serverStatus (sup w)) Starting
       || status_eqb (serverStatus (sup w)) Online
    then emit (ERespond (Reply false "Server is already starting or running" None)) w
    else (startMinecraftServer ;;
          emit (ERespond (Reply true "Server is starting with memory optimization..."
                                (Some "starting")))) w.

(** POST /stop *)
Definition stop_route (write_ok : bool) : Act :=
  fun w =>
    if status_eqb (serverStatus (sup w)) Offline
    then emit (ERespond (Reply false "Server is already offline" None)) w
    else (stopMinecraftServer write_ok ;;
          emit (ERespond (Reply true "Server is stopping..." (Some "stopping")))) w.

(** POST /command, with [command] the field of the same name of the body.
    The text of the answer is built outside any [try]: when
    [executeCommand] or that conversion throws, the handler throws and
    makes no [res.json] call. *)
Definition command_route (command : JsValue) (write_ok : bool) : Act :=
  fun w =>
    if negb (status_eqb (serverStatus (sup w)) Online)
       || negb (is_truthy command)
    then emit (ERespond (Reply false
                 "Server must be online and command must be provided" None)) w
    else
      let (r, completion) := executeCommand write_ok command w in
      match completion, template command with
      | Returned, Some text =>
          (fst r, snd r ++ [ERespond (Reply true
                              ("Command executed: " ++ text)%string None)])
      | _, _ => (fst r, snd r ++ [EThrow])
      end.

(** [process.on('SIGTERM')] and [process.on('SIGINT')]. *)
Definition on_signal (write_ok : bool) : Act :=
  stopMinecraftServer write_ok ;; setTimeout CbExit 5000%N.

(* ------------------------------------------------------------------ *)
(** ** The runtime: timers, events and steps *)

Definition halt : Act :=
  fun w =>
    ({| sup := sup w; now := now w; date := date w; nextPid := nextPid w; alive := alive w;
        nextTimer := nextTimer w; timers := timers w; halted := true |},
     [EExit 0]).

(** The body of each closure. *)
Definition run_callback (cb : Callback) : Act :=
  fun w =>
    match cb with
    | CbDisplayInfo => skip w
    | CbMemorySample =>
        match minecraftProcess (sup w) with
        | Some p => emit (EExecPs p) w
        | None => skip w
        end
    | CbRelaunch => startMinecraftServer w
    | CbForceKill =>
        match minecraftProcess (sup w) with
        | Some p => emit (EKill p SIGKILL) w
        | None => skip w
        end
    | CbExit => halt w
    end.

Definition find_timer (i : TimerId) (l : list Timer) : option Timer :=
  find (fun t => tid t =? i) l.

(** The runtime runs timer [t]: a timeout leaves the list, an interval is
    armed again one period later; then the closure runs. *)
Definition fire (t : Timer) : Act :=
  (fun w =>
     let rest := filter (fun u => negb (tid u =? tid t)) (timers w) in
     (with_timers (nextTimer w)
        match period t with
        | Some p => rest ++ [mkTimer (tid t) (now w + p)%N (Some p) (callback t)]
        | None => rest
        end w, [])) ;;
  run_callback (callback t).

(** [dt] ms pass: both clocks move on. *)
Definition advance (dt : N) : Act :=
  fun w =>
    ({| sup := sup w; now := (now w + dt)%N; date := (date w + Z.of_N dt)%Z;
        nextPid := nextPid w;
        alive := alive w; nextTimer := nextTimer w; timers := timers w;
        halted := halted w |}, []).

(** The clock of the host is set to [t]: [Date.now()] reads [t] from now
    on, the timers are not affected. *)
Definition set_clock (t : Z) : Act :=
  fun w =>
    ({| sup := sup w; now := now w; date := t; nextPid := nextPid w;
        alive := alive w; nextTimer := nextTimer w; timers := timers w;
        halted := halted w |}, []).

(** The child [p] has emitted 'close' and emits nothing afterwards. *)
Definition retire (p : Pid) : Act :=
  fun w =>
    ({| sup := sup w; now := now w; date := date w; nextPid := nextPid w;
        alive := filter (fun q => negb (q =? p)) (alive w);
        nextTimer := nextTimer w; timers := timers w;
        halted := halted w |}, []).

Inductive Event :=
| HttpStatus
| HttpStart
| HttpStop (write_ok : bool)
| HttpCommand (command : JsValue) (write_ok : bool)
| HostSignal (write_ok : bool)
| ProcStdout (p : Pid) (data : string)
| ProcStderr (p : Pid) (data : string)
| ProcError (p : Pid)
| ProcClose (p : Pid) (code : option Z)
| Advance (dt : N)
| ClockStep (t : Z)
| Fire (i : TimerId).

(** What the code does with an event. *)
Definition handle (e : Event) : Act :=
  match e with
  | HttpStatus => status_route
  | HttpStart => start_route
  | HttpStop ok => stop_route ok
  | HttpCommand c ok => command_route c ok
  | HostSignal ok => on_signal ok
  | ProcStdout _ data => on_stdout data
  | ProcStderr _ data => on_stderr data
  | ProcError _ => on_error
  | ProcClose p code => on_close code ;; retire p
  | Advance dt => advance dt
  | ClockStep t => set_clock t
  | Fire i =>
      fun w => match find_timer i (timers w) with
               | Some t => fire t w
               | None => skip w
               end
  end.

(** What the runtime can deliver: nothing after [process.exit]; events of a
    child only while it has not closed; a timer only once it is due. *)
Definition enabled (e : Event) (w : World) : bool :=
  negb (halted w) &&
  match e with
  | ProcStdout p _ | ProcStderr p _ | ProcError p | ProcClose p _ =>
      existsb (Nat.eqb p) (alive w)
  | Fire i =>
      match find_timer i (timers w) with
      | Some t => (due t <=? now w)%N
      | None => false
      end
  | _ => true
  end.

Definition step (e : Event) (w : World) : option (World * list Effect) :=
  if enabled e w then Some (handle e w) else None.

(** A sequence of events, with the effects of all of them. *)
Fixpoint run (es : list Event) (w : World) : option (World * list Effect) :=
  match es with
  | [] => Some (w, [])
  | e :: es' =>
      match step e w with
      | Some (w1, out1) =>
          match run es' w1 with
          | Some (w2, out2) => Some (w2, out1 ++ out2)
          | None => None
          end
      | None => None
      end
  end.

Inductive reachable : World -> Prop :=
| reach_init t0 d0 : reachable (init t0 d0)
| reach_step w e w' out :
    reachable w -> step e w = Some (w', out) -> reachable w'.

(* ------------------------------------------------------------------ *)
(** ** Vocabulary of the statements: invariants, test worlds, projections *)

(** The child held by [this.minecraftProcess], as a list. *)
Definition handle_list (w : World) : list Pid :=
  match minecraftProcess (sup w) with Some p => [p] | None => [] end.

(** The children still able to emit events are exactly the one the handle
    holds. *)
Definition alive_ok (w : World) : Prop := alive w = handle_list w.

(** 'online' is only ever stored together with [serverReady = true]. *)
Definition ready_ok (w : World) : Prop :=
  serverStatus (sup w) = Online -> serverReady (sup w) = true.

(** A null handle comes with status 'offline'. *)
Definition null_offline (w : World) : Prop :=
  minecraftProcess (sup w) = None -> serverStatus (sup w) = Offline.

(** Timer handles are numbered in the order of their creation. *)
Definition tids_ok (w : World) : Prop :=
  forall t, In t (timers w) -> tid t < nextTimer w.

(** [this.memoryMonitorInterval], when set, is the handle of an interval
    created by [startMemoryMonitoring]. *)
Definition sampler_ok (w : World) : Prop :=
  forall i, memoryMonitorInterval (sup w) = Some i ->
    i < nextTimer w /\
    forall t, In t (timers w) -> tid t = i -> callback t = CbMemorySample.

(** What every reachable world satisfies. *)
Record wf (w : World) : Prop := {
  wf_alive : alive_ok w;
  wf_ready : ready_ok w;
  wf_null : null_offline w;
  wf_tids : tids_ok w;
  wf_sampler : sampler_ok w
}.

(** 'starting', 'online' and 'stopping'. *)
Definition running_status (s : Status) : bool :=
  match s with
  | Starting | Online | Stopping => true
  | Offline => false
  end.

(** The invariant of the data model: the handle is non-null exactly when
    the status is 'starting', 'online' or 'stopping'. *)
Definition handle_iff_running (w : World) : Prop :=
  minecraftProcess (sup w) <> None <->
  running_status (serverStatus (sup w)) = true.

(** The 'error' event of a child. *)
Definition is_error (e : Event) : bool :=
  match e with ProcError _ => true | _ => false end.

(** The worlds reached when no child ever emits 'error'. *)
Inductive reachable_without_error : World -> Prop :=
| rwe_init t0 d0 : reachable_without_error (init t0 d0)
| rwe_step w e w' out :
    reachable_without_error w -> is_error e = false ->
    step e w = Some (w', out) -> reachable_without_error w'.

(** The world after the events [es], from a fresh supervisor at time 0. *)
Definition world_after (es : list Event) : World :=
  match run es (init 0 0) with
  | Some (w, _) => w
  | None => init 0 0
  end.

(** The effects of the events [es], from a fresh supervisor at time 0. *)
Definition effects_of (es : list Event) : list Effect :=
  match run es (init 0 0) with
  | Some (_, out) => out
  | None => []
  end.

(** The line a Paper server prints when it has finished booting. *)
Definition ready_line : string :=
  ("[12:00:00 INFO]: Done (12.345s)! For help, type "
   ++ dquote ++ "help" ++ dquote ++ nl)%string.




(** A started server whose boot line has been seen. *)
Definition online_world : World :=
  world_after [HttpStart; ProcStdout 0 ready_line].

(** The child [p] exits with [code], 30000 ms pass, and the timer [i]
    runs. *)
Definition crash_cycle (p : Pid) (code : option Z) (i : TimerId) : list Event :=
  [ProcClose p code; Advance 30000; Fire i].

(** Two crashes in a row, each followed by its automatic relaunch. *)
Definition crashed_twice : World :=
  world_after [HttpStart;
               ProcClose 0 (Some 1%Z); Advance 30000; Fire 0;
               ProcClose 1 None; Advance 30000; Fire 1].

(** The 'close' or the 'error' event of a child. *)
Definition is_exit_or_error (e : Event) : bool :=
  match e with
  | ProcError _ | ProcClose _ _ => true
  | _ => false
  end.

(** A chunk of output that holds both readiness markers. *)
Definition is_ready_chunk (e : Event) : bool :=
  match e with
  | ProcStdout _ data => is_ready_line (trim data)
  | _ => false
  end.

(** Events that end the 'stopping' phase: the exit or the error of the
    child, or one more readiness line. *)
Definition ends_stopping (e : Event) : bool :=
  is_exit_or_error e || is_ready_chunk e.

(** Pending timers that run [startMinecraftServer]. *)
Definition relaunches (l : list Timer) : list Timer :=
  filter (fun t => callback_eqb (callback t) CbRelaunch) l.

(** Some armed memory sampler has the handle [i]. *)
Definition sampler_armed (i : TimerId) (l : list Timer) : bool :=
  existsb (fun t => (tid t =? i) && callback_eqb (callback t) CbMemorySample) l.

(** POST /start, the manual start. *)
Definition is_start (e : Event) : bool :=
  match e with HttpStart => true | _ => false end.

(** The [spawn] calls among some effects. *)
Definition spawns (out : list Effect) : list Effect :=
  filter (fun e => match e with ESpawn _ => true | _ => false end) out.

(** No child, status 'offline', and no relaunch pending. *)
Definition quiet (w : World) : Prop :=
  minecraftProcess (sup w) = None /\
  serverStatus (sup w) = Offline /\
  alive w = [] /\
  relaunches (timers w) = [].

(* ------------------------------------------------------------------ *)
(** ** More vocabulary: further invariants, effects, a clean run *)

(** 'online' or 'stopping'. *)
Definition ready_status (s : Status) : bool :=
  match s with Online | Stopping => true | _ => false end.

(** [serverReady] is only true under 'online' or 'stopping'. *)
Definition ready_live (w : World) : Prop :=
  serverReady (sup w) = true -> ready_status (serverStatus (sup w)) = true.

(** [startTime] is null under status 'offline'. *)
Definition start_time_ok (w : World) : Prop :=
  serverStatus (sup w) = Offline -> startTime (sup w) = None.

(** A recorded sampler comes with a child and with status 'online' or
    'offline'. *)
Definition sampler_field_ok (w : World) : Prop :=
  memoryMonitorInterval (sup w) <> None ->
  minecraftProcess (sup w) <> None /\
  (serverStatus (sup w) = Online \/ serverStatus (sup w) = Offline).

(** The reachable worlds satisfy all of them. *)
Record wf_more (w : World) : Prop := {
  wfm_attempts : restartAttempts (sup w) <= 2;
  wfm_ready : ready_live w;
  wfm_time : start_time_ok w;
  wfm_sampler : sampler_field_ok w
}.

(** The child an effect is addressed to. *)
Definition effect_child (x : Effect) : option Pid :=
  match x with
  | EStdinWrite p _ | EKill p _ | EExecPs p => Some p
  | ESpawn _ | ERespond _ | EThrow | EExit _ => None
  end.

(** What the event [e] may write to the child: the stop command, or, when
    [e] is a POST /command, the text of its command, which is then truthy
    and has a [length] below 100; each with a line feed. *)
Definition allowed_stdin (e : Event) (text : string) : Prop :=
  text = ("stop" ++ nl)%string \/
  exists command write_ok c,
    e = HttpCommand command write_ok /\
    is_truthy command = true /\ length_below_100 command = Some true /\
    template command = Some c /\ text = (c ++ nl)%string.

(** Three crashes with a POST /start right after the first and the second,
    before the backoff of 30000 ms is over. *)
Definition impatient_restarts : list Event :=
  [HttpStart; ProcClose 0 (Some 1%Z);
   HttpStart; ProcClose 1 (Some 1%Z);
   HttpStart; ProcClose 2 (Some 1%Z)].

(** One POST /start right after the first crash; the child it starts
    prints the boot line and crashes, and the two children that timers
    relaunch after it crash as well. *)
Definition three_crashes_unattended : list Event :=
  [HttpStart; ProcClose 0 (Some 1%Z);
   HttpStart; ProcStdout 1 ready_line; ProcClose 1 (Some 1%Z);
   Advance 30000; Fire 0; ProcClose 2 (Some 1%Z);
   Fire 3; ProcClose 3 (Some 1%Z)].

(** A child whose boot line is seen twice, and which then exits with
    code 0. *)
Definition twice_ready : list Event :=
  [HttpStart; ProcStdout 0 ready_line; ProcStdout 0 ready_line;
   ProcClose 0 (Some 0%Z)].

(** Three crashes in a row: the supervisor has given up. *)
Definition gave_up : World :=
  world_after [HttpStart;
               ProcClose 0 (Some 1%Z); Advance 30000; Fire 0;
               ProcClose 1 None; Advance 30000; Fire 1;
               ProcClose 2 (Some 1%Z)].

(** One clean run of the child [p]: started by hand, seen ready, stopped by
    hand, exited with code 0. *)
Definition clean_run (p : Pid) (data : string) (write_ok : bool) : list Event :=
  [HttpStart; ProcStdout p data; HttpStop write_ok; ProcClose p (Some 0%Z)].

(** What [stopMinecraftServer] sends to the child [p]. *)
Definition stop_effects (p : Pid) (write_ok : bool) : list Effect :=
  EStdinWrite p ("stop" ++ nl)%string ::
  (if write_ok then [] else [EKill p SIGTERM]).

(* ------------------------------------------------------------------ *)
(** ** [getLocalIP] and the order of the constructor *)

Module HostInfo.

(** One entry of an array of [os.networkInterfaces()]. *)
Record NetworkInterface := mkNetworkInterface {
  family : string;
  internal : bool;
  address : string
}.

(** The object returned by [os.networkInterfaces()], as the list of its
    keys, in the order of [Object.keys], each with its array. *)
Definition Interfaces := list (string * list NetworkInterface).

(** [networkInterface.family === 'IPv4' && !networkInterface.internal] *)
Definition is_external_ipv4 (n : NetworkInterface) : bool :=
  String.eqb (family n) "IPv4" && negb (internal n).

(** The inner [for] loop: the first hit returns. *)
Fixpoint scan_interface (l : list NetworkInterface) : option string :=
  match l with
  | [] => None
  | n :: rest =>
      if is_external_ipv4 n then Some (address n) else scan_interface rest
  end.

(** The outer [for] loop. *)
Fixpoint scan_interfaces (l : Interfaces) : option string :=
  match l with
  | [] => None
  | (_, ifs) :: rest =>
      match scan_interface ifs with
      | Some a => Some a
      | None => scan_interfaces rest
      end
  end.

(** Truthiness of [this.isKoyeb]; [None] is a field not assigned yet. *)
Definition flag (f : option bool) : bool :=
  match f with Some b => b | None => false end.

(** [getLocalIP()]; [interfaces = None] when [os.networkInterfaces()]
    throws, which the [catch] turns into the fallback. *)
Definition getLocalIP (isKoyeb : option bool)
    (interfaces : option Interfaces) : string :=
  let fallback := if flag isKoyeb then "0.0.0.0" else "localhost" in
  match interfaces with
  | Some l =>
      match scan_interfaces l with
      | Some a => a
      | None => fallback
      end
  | None => fallback
  end.

(** The two fields of the constructor that are about the host, assigned in
    the order of the source: [localIP] first, by a call of [getLocalIP]
    that reads [this.isKoyeb] before the constructor has assigned it. *)
Record Host := mkHost {
  localIP : string;
  isKoyeb : bool
}.

(** [node_env] is [process.env.NODE_ENV]. *)
Definition constructor_host (node_env : option string)
    (interfaces : option Interfaces) : Host :=
  let local := getLocalIP None interfaces in
  let koyeb := match node_env with
               | Some v => String.eqb v "production"
               | None => false
               end in
  {| localIP := local; isKoyeb := koyeb |}.

(** No entry has an external IPv4 interface. *)
Definition no_external (l : Interfaces) : Prop :=
  forall name ifs n, In (name, ifs) l -> In n ifs -> is_external_ipv4 n = false.

(** Three interfaces used as test inputs. *)
Definition loopback : NetworkInterface :=
  mkNetworkInterface "IPv4" true "127.0.0.1".
Definition ipv6_global : NetworkInterface :=
  mkNetworkInterface "IPv6" false "2001:db8::1".
Definition lan : NetworkInterface :=
  mkNetworkInterface "IPv4" false "10.0.0.7".

End HostInfo.

(* ------------------------------------------------------------------ *)
(** ** [getMemoryUsage] *)

Module MemoryUsage.

(** A number of bytes: a whole number below 2^53.  In that range every
    whole number is a JavaScript number, the arithmetic on them is exact
    and a number is printed as its decimal digits; sizes of memory lie in
    it. *)
Record Bytes := mkBytes {
  count : N;
  count_safe : (count <? 2 ^ 53)%N = true
}.

(** The three fields of [process.memoryUsage()] the method reads. *)
Record Usage := mkUsage {
  rss : Bytes;
  heapUsed : Bytes;
  heapTotal : Bytes
}.

(** [Math.round(bytes / 1024 / 1024)]: both divisions are by a power of
    two, so the quotient is exact and the result is the nearest integer,
    halves going up. *)
Definition megabytes (bytes : N) : N := ((bytes + 524288) / 1048576)%N.

(** [Math.round(bytes / 1024 / 1024) + 'MB'].  The figure is a whole number
    of at most 2^33, so [+] turns it into its decimal digits. *)
Definition mb_text (bytes : Bytes) : string :=
  (NilZero.string_of_uint (N.to_uint (megabytes (count bytes))) ++ "MB")%string.

Inductive Report :=
| Figures (rss heapUsed heapTotal : string)
| Failure (error : string).

(** [getMemoryUsage()]; [used = None] when [process.memoryUsage()]
    throws. *)
Definition getMemoryUsage (used : option Usage) : Report :=
  match used with
  | Some u => Figures (mb_text (rss u)) (mb_text (heapUsed u)) (mb_text (heapTotal u))
  | None => Failure "Unable to get memory usage"
  end.

(** Reading a decimal numeral back. *)
Definition read_decimal (s : string) : option N :=
  option_map N.of_uint (NilZero.uint_of_string s).

(** Dropping a final ['MB']. *)
Fixpoint strip_mb (s : string) : option string :=
  match s with
  | EmptyString => None
  | String c rest =>
      if String.eqb s "MB" then Some EmptyString
      else option_map (String c) (strip_mb rest)
  end.

(** Reading back a figure printed by [getMemoryUsage]. *)
Definition read_mb (s : string) : option N :=
  match strip_mb s with
  | Some d => read_decimal d
  | None => None
  end.

End MemoryUsage.

(* ------------------------------------------------------------------ *)
(** ** [getPublicIP] *)

Module PublicIP.

(** [a || b] on two environment variables; an unset or empty variable is
    falsy. *)
Definition env_or (a b : option string) : option string :=
  if truthy a then a else b.

(** What the request and its response emit. *)
Inductive Event :=
| ResponseData (chunk : string)
| ResponseEnd
| RequestError
| RequestTimeout.

(** [data] of the response callback, [this.publicIP], and whether
    [req.destroy()] was called. *)
Record Fetch := mkFetch {
  data : string;
  publicIP : option string;
  destroyed : bool
}.

(** [this.isKoyeb ? 'production-server' : 'localhost'] *)
Definition fallback (isKoyeb : bool) : string :=
  if isKoyeb then "production-server" else "localhost".

(** The four listeners. *)
Definition on_event (isKoyeb : bool) (f : Fetch) (e : Event) : Fetch :=
  match e with
  | ResponseData chunk =>
      mkFetch (data f ++ chunk)%string (publicIP f) (destroyed f)
  | ResponseEnd => mkFetch (data f) (Some (trim (data f))) (destroyed f)
  | RequestError => mkFetch (data f) (Some (fallback isKoyeb)) (destroyed f)
  | RequestTimeout => mkFetch (data f) (Some (fallback isKoyeb)) true
  end.

(** [getPublicIP()] on a fresh object ([this.publicIP] is null), followed
    by the events of its request.  [koyeb] and [railway] are the variables
    KOYEB_PUBLIC_DOMAIN and RAILWAY_STATIC_URL; [request = None] when
    [https.request] throws, else the events in their order.  The second
    component tells whether a request was made. *)
Definition getPublicIP (koyeb railway : option string) (isKoyeb : bool)
    (request : option (list Event)) : Fetch * bool :=
  if truthy (env_or koyeb railway) then
    (mkFetch "" (env_or koyeb railway) false, false)
  else
    match request with
    | Some events =>
        (fold_left (on_event isKoyeb) events (mkFetch "" None false), true)
    | None => (mkFetch "" (Some (fallback isKoyeb)) false, false)
    end.

(** The chunks of a body, put together. *)
Definition body_of (chunks : list string) : string :=
  fold_right append EmptyString chunks.

End PublicIP.

(* ------------------------------------------------------------------ *)
(** ** [downloadFile] and [downloadRequiredFiles] *)

Module Download.

(** What a path holds. *)
Inductive Node :=
| Directory
| File (content : string).

(** The file system, as far as [fs.existsSync], [fs.mkdirSync],
    [fs.createWriteStream] and [fs.unlinkSync] see it. *)
Definition Files := string -> option Node.

Definition existsSync (fs : Files) (path : string) : bool :=
  match fs path with Some _ => true | None => false end.

Definition put (fs : Files) (path : string) (n : option Node) : Files :=
  fun q => if String.eqb q path then n else fs q.

(** [fs.mkdirSync(path, { recursive: true })], used on a path whose parent
    exists. *)
Definition mkdirSync (fs : Files) (path : string) : Files :=
  put fs path (Some Directory).

(** [fs.createWriteStream(path)]: the file is created empty. *)
Definition createWriteStream (fs : Files) (path : string) : Files :=
  put fs path (Some (File "")).

Definition unlinkSync (fs : Files) (path : string) : Files :=
  put fs path None.

(** [if (fs.existsSync(filepath)) { fs.unlinkSync(filepath); }] *)
Definition discard (fs : Files) (path : string) : Files :=
  if existsSync fs path then unlinkSync fs path else fs.

(** The module [client.get] is called on. *)
Inductive Client := Https | Http.

(** What one [client.get] leads to: a response, with the body that is
    piped into the file when the status is 200 ([None] when the write
    stream emits 'error'), or an 'error' or 'timeout' of the request. *)
Inductive Answer :=
| Response (statusCode : nat) (statusMessage : string)
           (location : option string) (body : option string)
| RequestError (message : string)
| RequestTimeout.

(** Why the promise is rejected. *)
Inductive Failure :=
| HttpStatus (statusCode : nat) (statusMessage : string)
| WriteError
| RequestFailed (message : string)
| DownloadTimeout
| BadUrl           (* [url.startsWith] on an undefined [url] *)
| InvalidUrl.      (* [client.get] throws on [url] *)

Inductive Outcome :=
| Resolved
| Rejected (f : Failure)
| Pending.         (* no answer: the promise is never settled *)

Record Result := mkResult {
  outcome : Outcome;
  files : Files;
  requests : list (Client * string)
}.

(** [url.startsWith('https') ? https : http] *)
Definition client_for (url : string) : Client :=
  if starts_with "https" url then Https else Http.

Definition add_request (r : Client * string) (x : Result) : Result :=
  mkResult (outcome x) (files x) (r :: requests x).

(** [downloadFile(url, filepath, description)].  [answers] are the answers
    to the requests it makes, in their order; a redirection calls the
    method again with the rest of them.  [url = None] is an undefined
    [url], as [response.headers.location] can be.

    [accepts client url] tells whether [client.get] takes [url].  That is
    decided by the [http] and [https] modules of Node, outside this
    repository: they throw on an address that is not absolute, or whose
    scheme is not theirs.  The throw happens inside the promise, after the
    write stream was created: the promise is rejected, no request is made
    and nothing removes the file. *)
Fixpoint downloadFile (accepts : Client -> string -> bool)
    (answers : list Answer) (url : option string)
    (filepath : string) (fs : Files) : Result :=
  if existsSync fs filepath then mkResult Resolved fs []
  else
    let fs1 := createWriteStream fs filepath in
    match url with
    | None => mkResult (Rejected BadUrl) fs1 []
    | Some u =>
        let client := client_for u in
        if negb (accepts client u) then mkResult (Rejected InvalidUrl) fs1 []
        else
        match answers with
        | [] => mkResult Pending fs1 [(client, u)]
        | Response code message location body :: rest =>
            if (code =? 302) || (code =? 301) then
              add_request (client, u)
                (downloadFile accepts rest location filepath
                   (discard fs1 filepath))
            else if negb (code =? 200) then
              mkResult (Rejected (HttpStatus code message))
                       (discard fs1 filepath) [(client, u)]
            else
              match body with
              | Some b =>
                  mkResult Resolved (put fs1 filepath (Some (File b)))
                           [(client, u)]
              | None =>
                  mkResult (Rejected WriteError) (discard fs1 filepath)
                           [(client, u)]
              end
        | RequestError message :: _ =>
            mkResult (Rejected (RequestFailed message))
                     (discard fs1 filepath) [(client, u)]
        | RequestTimeout :: _ =>
            mkResult (Rejected DownloadTimeout) (discard fs1 filepath)
                     [(client, u)]
        end
    end.

(** The paths and addresses of [downloadRequiredFiles]. *)
Definition serverPath : string := "minecraft-server".
Definition pluginsPath : string := "minecraft-server/plugins".
Definition jarPath : string := "minecraft-server/paper-server.jar".
Definition geyserPath : string := "minecraft-server/plugins/Geyser-Spigot.jar".
Definition floodgatePath : string := "minecraft-server/plugins/floodgate-spigot.jar".

Definition paperUrl : string :=
  "https://api.papermc.io/v2/projects/paper/versions/1.20.4/builds/497/downloads/paper-1.20.4-497.jar".
Definition geyserUrl : string :=
  "https://download.geysermc.org/v2/projects/geyser/versions/latest/builds/latest/downloads/spigot".
Definition floodgateUrl : string :=
  "https://download.geysermc.org/v2/projects/floodgate/versions/latest/builds/latest/downloads/spigot".

(** [if (!fs.existsSync(path)) { fs.mkdirSync(path, { recursive: true }); }] *)
Definition ensure_dir (fs : Files) (path : string) : Files :=
  if existsSync fs path then fs else mkdirSync fs path.

(** How [downloadRequiredFiles] ends: it catches every rejection. *)
Inductive Setup :=
| SetupDone (caught : option Failure)
| SetupPending.

Record SetupResult := mkSetup {
  setup : Setup;
  setup_files : Files;
  setup_requests : list (Client * string);
  sleeps : nat               (* number of [await this.sleep(1500)] *)
}.

(** [downloadRequiredFiles()]; [a1], [a2], [a3] are the answers to the
    requests of the three downloads. *)
Definition downloadRequiredFiles (accepts : Client -> string -> bool)
    (a1 a2 a3 : list Answer) (fs : Files) : SetupResult :=
  let fs0 := ensure_dir (ensure_dir fs serverPath) pluginsPath in
  let d1 := downloadFile accepts a1 (Some paperUrl) jarPath fs0 in
  match outcome d1 with
  | Rejected f => mkSetup (SetupDone (Some f)) (files d1) (requests d1) 0
  | Pending => mkSetup SetupPending (files d1) (requests d1) 0
  | Resolved =>
      let d2 := downloadFile accepts a2 (Some geyserUrl) geyserPath (files d1) in
      match outcome d2 with
      | Rejected f =>
          mkSetup (SetupDone (Some f)) (files d2)
                  (requests d1 ++ requests d2) 1
      | Pending =>
          mkSetup SetupPending (files d2) (requests d1 ++ requests d2) 1
      | Resolved =>
          let d3 :=
            downloadFile accepts a3 (Some floodgateUrl) floodgatePath (files d2) in
          match outcome d3 with
          | Rejected f =>
              mkSetup (SetupDone (Some f)) (files d3)
                      (requests d1 ++ requests d2 ++ requests d3) 2
          | Pending =>
              mkSetup SetupPending (files d3)
                      (requests d1 ++ requests d2 ++ requests d3) 2
          | Resolved =>
              mkSetup (SetupDone None) (files d3)
                      (requests d1 ++ requests d2 ++ requests d3) 2
          end
      end
  end.

(** A check used in the examples: an address is taken when it starts with
    the scheme of the module followed by [://].  The check of Node is
    finer; the theorems are about every check. *)
Definition scheme_check (client : Client) (url : string) : bool :=
  match client with
  | Https => starts_with "https://" url
  | Http => starts_with "http://" url
  end.

(** A redirection to [location]. *)
Definition redirect (location : string) : Answer :=
  Response 302 "Found" (Some location) None.

(** The five paths [downloadRequiredFiles] is about. *)
Definition setup_paths : list string :=
  [serverPath; pluginsPath; jarPath; geyserPath; floodgatePath].

(** The empty file system. *)
Definition no_files : Files := fun _ => None.

(** A file system with the three files of the setup added. *)
Definition files_present (fs : Files) : Files :=
  put (put (put fs jarPath (Some (File "paper")))
           geyserPath (Some (File "geyser")))
      floodgatePath (Some (File "floodgate")).

End Download.

(* ------------------------------------------------------------------ *)
(** ** Proof support *)

Arguments find_timer : simpl never.
Arguments sampler_armed : simpl never.
Arguments relaunches : simpl never.

(** Unfold every action down to the record updates. *)
Ltac unfold_acts :=
  unfold handle, start_route, stop_route, command_route, status_route,
    on_signal, on_stdout, on_stderr, on_error, on_close,
    stopMinecraftServer, startMinecraftServer, executeCommand,
    startMemoryMonitoring, stopMemoryMonitoring, spawn,
    set_restartAttempts, setTimeout, clearInterval, fire, run_callback,
    halt, advance, set_clock, retire, modify, emit, skip, seq, with_sup, with_timers
    in *.

(** Name every field of a world. *)
Ltac break_world w :=
  let s := fresh "s" in
  destruct w as [s ? ? ? ? ? ? ?]; destruct s as [? ? ? ? ? ?].

(** Case analysis on the scrutinee of a stuck [match] of the goal; pairs
    are left alone, they reduce once the tests inside them are decided. *)
Ltac break_match :=
  match goal with
  | |- context [match ?x with _ => _ end] => is_var x; destruct x eqn:?
  | |- context [match ?x with _ => _ end] =>
      lazymatch type of x with
      | prod _ _ => fail
      | _ => destruct x eqn:?
      end
  end.

(* ------------------------------------------------------------------ *)
(** ** Facts about [includes] and [trim] *)

Lemma starts_with_trimEnd (needle : string) :
  (forall z, last_char needle = Some z -> is_space z = false) ->
  forall hay, starts_with needle (trimEnd hay) = starts_with needle hay.
Proof.
  induction needle as [|a n IH]; intros Hz hay; [reflexivity|].
  destruct hay as [|b h]; [reflexivity|].
  cbn [trimEnd].
  assert (Hn : forall z, last_char n = Some z -> is_space z = false).
  { intros z Hl. apply Hz. destruct n; [discriminate|exact Hl]. }
  destruct (is_space b) eqn:Eb; cbn [andb].
  - destruct (trimEnd h) as [|c t'] eqn:Et; cbn [is_empty].
    + cbn [starts_with].
      destruct (Ascii.eqb a b) eqn:Eab; [|reflexivity].
      apply Ascii.eqb_eq in Eab; subst b. cbn [andb].
      specialize (IH Hn h). rewrite Et in IH.
      destruct n as [|a' n'].
      * specialize (Hz a eq_refl). congruence.
      * cbn [starts_with] in IH. exact IH.
    + cbn [starts_with]. rewrite <- Et, (IH Hn). reflexivity.
  - cbn [starts_with]. rewrite (IH Hn). reflexivity.
Qed.

Lemma includes_all_space (needle : string) a n :
  needle = String a n -> is_space a = false ->
  forall hay, trimEnd hay = EmptyString -> includes needle hay = false.
Proof.
  intros -> Ha. induction hay as [|b h IH]; intros Ht.
  - reflexivity.
  - cbn [trimEnd] in Ht.
    destruct (is_space b) eqn:Eb; cbn [andb] in Ht; [|discriminate].
    destruct (trimEnd h) eqn:Eh; cbn [is_empty] in Ht; [|discriminate].
    cbn [includes starts_with].
    destruct (Ascii.eqb a b) eqn:Eab.
    + apply Ascii.eqb_eq in Eab. congruence.
    + cbn [andb orb]. apply IH. reflexivity.
Qed.

Lemma includes_trimEnd (needle : string) :
  solid needle ->
  forall hay, includes needle (trimEnd hay) = includes needle hay.
Proof.
  intros [[a [Ha Hsa]] [z [Hz Hsz]]].
  destruct needle as [|a0 n]; [discriminate|].
  cbn in Ha. injection Ha as ->.
  assert (Hl : forall z', last_char (String a n) = Some z' -> is_space z' = false)
    by (intros z' Hz'; congruence).
  induction hay as [|b h IH]; [reflexivity|].
  destruct (trimEnd (String b h)) as [|c t] eqn:Et.
  - symmetry. change (includes (String a n) EmptyString) with false.
    eapply includes_all_space; eauto.
  - rewrite <- Et.
    assert (Et' : trimEnd (String b h) = String b (trimEnd h)).
    { cbn [trimEnd] in Et |- *.
      destruct (is_space b && is_empty (trimEnd h)); [discriminate|reflexivity]. }
    rewrite Et'. cbn [includes]. rewrite IH. f_equal.
    rewrite <- Et'. apply (starts_with_trimEnd _ Hl).
Qed.

Lemma includes_trimStart (needle : string) :
  solid needle ->
  forall hay, includes needle (trimStart hay) = includes needle hay.
Proof.
  intros [[a [Ha Hsa]] _].
  destruct needle as [|a0 n]; [discriminate|].
  cbn in Ha. injection Ha as ->.
  induction hay as [|b h IH]; [reflexivity|].
  cbn [trimStart]. destruct (is_space b) eqn:Eb; [|reflexivity].
  rewrite IH. cbn [includes starts_with].
  destruct (Ascii.eqb a b) eqn:Eab; [|reflexivity].
  apply Ascii.eqb_eq in Eab. congruence.
Qed.

(** Trimming does not change whether a solid needle occurs. *)
Lemma includes_trim (needle hay : string) :
  solid needle -> includes needle (trim hay) = includes needle hay.
Proof.
  intros H. unfold trim.
  rewrite includes_trimEnd by exact H. apply includes_trimStart, H.
Qed.

(* ------------------------------------------------------------------ *)
(** ** Runs and steps *)

Lemma run_reachable es : forall w w' out,
  reachable w -> run es w = Some (w', out) -> reachable w'.
Proof.
  induction es as [|e es IH]; intros w w' out Hw Hr; cbn in Hr.
  - injection Hr as <- _. exact Hw.
  - destruct (step e w) as [[w1 o1]|] eqn:Es; [|discriminate].
    destruct (run es w1) as [[w2 o2]|] eqn:Er; [|discriminate].
    injection Hr as <- _. eapply IH; [|exact Er].
    eapply reach_step; eauto.
Qed.

Lemma status_eqb_eq a b : status_eqb a b = true <-> a = b.
Proof. destruct a, b; cbn; split; congruence. Qed.

Lemma status_eqb_neq a b : status_eqb a b = false <-> a <> b.
Proof. destruct a, b; cbn; split; congruence. Qed.

Lemma step_enabled e w w' out :
  step e w = Some (w', out) -> enabled e w = true /\ handle e w = (w', out).
Proof.
  unfold step. destruct (enabled e w); [|discriminate].
  intros H. injection H as H. auto.
Qed.

(** The readiness markers start and end with a visible character, so the
    test of the listener can be read on the untrimmed chunk. *)
Lemma marker_done_solid : solid marker_done.
Proof. split; eexists; split; reflexivity. Qed.

Lemma marker_help_solid : solid marker_help.
Proof. split; eexists; split; reflexivity. Qed.

Lemma is_ready_line_trim data :
  is_ready_line (trim data) =
  includes marker_done data && includes marker_help data.
Proof.
  unfold is_ready_line.
  rewrite (includes_trim _ _ marker_done_solid).
  rewrite (includes_trim _ _ marker_help_solid). reflexivity.
Qed.

(* ------------------------------------------------------------------ *)
(** ** Invariants of the reachable worlds *)

Lemma alive_ok_step e w :
  alive_ok w -> enabled e w = true -> alive_ok (fst (handle e w)).
Proof.
  unfold alive_ok, handle_list, enabled. intros Ha He.
  apply andb_prop in He as [_ He].
  destruct e; break_world w; cbn in *; subst; unfold_acts; cbn in *;
    repeat (break_match; cbn in *); subst; try congruence;
    try discriminate; try reflexivity.
  all: rewrite orb_false_r in He; apply Nat.eqb_eq in He; subst;
    rewrite Nat.eqb_refl in *; discriminate.
Qed.

Lemma ready_ok_step e w : ready_ok w -> ready_ok (fst (handle e w)).
Proof.
  unfold ready_ok. intros Hr.
  destruct e; break_world w; cbn in *; unfold_acts; cbn in *;
    repeat (break_match; cbn in *); subst; try congruence; try discriminate;
    auto.
Qed.

Lemma null_offline_step e w :
  alive_ok w -> null_offline w -> enabled e w = true ->
  null_offline (fst (handle e w)).
Proof.
  unfold alive_ok, handle_list, null_offline, enabled. intros Ha Hn He.
  apply andb_prop in He as [_ He].
  destruct e; break_world w; cbn in *; subst; unfold_acts; cbn in *;
    repeat (break_match; cbn in *); subst; try congruence; try discriminate;
    auto.
Qed.

Lemma find_timer_some i l t :
  find_timer i l = Some t -> In t l /\ tid t = i.
Proof.
  unfold find_timer. intros H. apply find_some in H as [Hin Ht].
  apply Nat.eqb_eq in Ht. auto.
Qed.

(** Membership in a list of timers built by [++], [filter] and [find]. *)
Ltac timers_tac :=
  repeat match goal with
    | H : In _ (_ ++ _) |- _ => apply in_app_or in H as [H|H]
    | H : In _ (filter _ _) |- _ => apply filter_In in H as [H ?]
    | H : In _ [_] |- _ => destruct H as [H|[]]; subst
    | H : In _ [] |- _ => destruct H
    | H : find_timer _ _ = Some _ |- _ =>
        apply find_timer_some in H as [H ?]
    | H : Some _ = Some _ |- _ => injection H as H; subst
    | H : negb (_ =? _) = true |- _ =>
        apply negb_true_iff in H; apply Nat.eqb_neq in H
    end.

Lemma tids_ok_step e w : tids_ok w -> tids_ok (fst (handle e w)).
Proof.
  unfold tids_ok. intros Hw.
  destruct e; break_world w; cbn in *; unfold_acts; cbn in *;
    repeat (break_match; cbn in *); auto;
    intros u Hu; timers_tac; cbn;
    try (specialize (Hw _ Hu); lia); try lia.
  all: match goal with
       | H : In ?t _ |- tid ?t < _ => specialize (Hw _ H); lia
       end.
Qed.

Lemma sampler_ok_step e w :
  tids_ok w -> sampler_ok w -> sampler_ok (fst (handle e w)).
Proof.
  unfold tids_ok, sampler_ok. intros Ht Hs.
  destruct e; break_world w; cbn in *; unfold_acts; cbn in *;
    repeat (break_match; cbn in *); auto; try discriminate;
    intros j Hj; try discriminate;
    try (injection Hj as <-);
    (split; [ try (specialize (Hs _ Hj) as [Hs _]); try lia
            | intros u Hu Hi; timers_tac; cbn in *; try reflexivity;
              try (specialize (Ht _ Hu); lia);
              try (specialize (Hs _ Hj) as [_ Hs]; eauto; fail) ]).
  all: try (specialize (Hs _ Hj) as [Hlt Hs]; try lia; eauto; fail).
  all: try lia.
  all: try (specialize (Hs _ eq_refl) as [Hlt _]; lia).
  all: specialize (Hs _ eq_refl) as [_ Hs];
    match goal with
    | H : In ?t _ |- _ => specialize (Hs _ H eq_refl); congruence
    end.
Qed.

Lemma wf_init t0 d0 : wf (init t0 d0).
Proof.
  split; red; cbn; try reflexivity; try discriminate; intros; tauto.
Qed.

Lemma wf_step e w : wf w -> enabled e w = true -> wf (fst (handle e w)).
Proof.
  intros [Ha Hr Hn Ht Hs] He. split.
  - apply alive_ok_step; assumption.
  - apply ready_ok_step; assumption.
  - apply null_offline_step; assumption.
  - apply tids_ok_step; assumption.
  - apply sampler_ok_step; assumption.
Qed.

Lemma reachable_wf w : reachable w -> wf w.
Proof.
  induction 1 as [t0 d0|w e w' out _ IH Hs].
  - apply wf_init.
  - apply step_enabled in Hs as [He Hh].
    replace w' with (fst (handle e w)) by (rewrite Hh; reflexivity).
    apply wf_step; assumption.
Qed.

(* ------------------------------------------------------------------ *)
(** ** The handle and the status *)

Lemma handle_iff_running_init t0 d0 : handle_iff_running (init t0 d0).
Proof. split; cbn; intros H; [congruence|discriminate]. Qed.

(** Every event other than the child's 'error' keeps the invariant. *)
Lemma handle_iff_running_step e w :
  alive_ok w -> handle_iff_running w ->
  enabled e w = true -> is_error e = false ->
  handle_iff_running (fst (handle e w)).
Proof.
  unfold alive_ok, handle_list, handle_iff_running, enabled.
  intros Ha Hi He Hne. apply andb_prop in He as [_ He].
  destruct e; try discriminate;
    break_world w; cbn in *; subst; unfold_acts; cbn in *;
    repeat (break_match; cbn in *); subst; try discriminate;
    try exact Hi;
    try (split; intros; [reflexivity|congruence]);
    try (split; intros; [congruence|discriminate]).
Qed.

Lemma reachable_without_error_reachable w :
  reachable_without_error w -> reachable w.
Proof.
  induction 1 as [t0 d0|w e w' out _ IH _ Hs].
  - apply reach_init.
  - eapply reach_step; eassumption.
Qed.

(** As long as no child emits 'error', the handle is non-null exactly when
    the status is 'starting', 'online' or 'stopping'. *)
Lemma handle_iff_running_without_error w :
  reachable_without_error w -> handle_iff_running w.
Proof.
  induction 1 as [t0 d0|w e w' out Hr IH He Hs].
  - apply handle_iff_running_init.
  - apply step_enabled in Hs as [Hen Hh].
    replace w' with (fst (handle e w)) by (rewrite Hh; reflexivity).
    apply handle_iff_running_step; try assumption.
    apply reachable_wf, reachable_without_error_reachable, Hr.
Qed.

(** On every reachable world a status other than 'offline' comes with a
    non-null handle; only the converse can fail. *)
Lemma running_has_handle w :
  reachable w ->
  running_status (serverStatus (sup w)) = true ->
  minecraftProcess (sup w) <> None.
Proof.
  intros Hr Hs Hn. apply reachable_wf in Hr. destruct Hr as [_ _ Hnull _ _].
  rewrite (Hnull Hn) in Hs. discriminate.
Qed.

(** Claim C1, at the input where it fails.  The 'error' listener stores
    'offline' and leaves [minecraftProcess] as it is, in every world; after
    POST /start and a launch failure of the child the status is 'offline'
    while the handle is still the failed child, so the handle is non-null
    although the status is none of 'starting', 'online', 'stopping'. *)
Theorem launch_error_keeps_handle :
  (forall w,
     minecraftProcess (sup (fst (on_error w))) = minecraftProcess (sup w) /\
     serverStatus (sup (fst (on_error w))) = Offline) /\
  (exists w out,
     run [HttpStart; ProcError 0] (init 0 0) = Some (w, out) /\
     reachable w /\
     minecraftProcess (sup w) = Some 0 /\
     serverStatus (sup w) = Offline /\
     ~ handle_iff_running w).
Proof.
  split.
  - intros w. split; reflexivity.
  - destruct (run [HttpStart; ProcError 0] (init 0 0)) as [[w out]|] eqn:E;
      [|discriminate].
    exists w, out. split; [reflexivity|].
    split; [eapply run_reachable; [apply reach_init|exact E]|].
    cbv in E. injection E as <- <-. cbn.
    split; [reflexivity|]. split; [reflexivity|].
    intros [H _]. cbn in H. discriminate H. congruence.
Qed.

(* ------------------------------------------------------------------ *)
(** ** Concrete worlds used as test inputs *)

Lemma world_after_reachable es :
  is_some (run es (init 0 0)) = true -> reachable (world_after es).
Proof.
  unfold world_after.
  destruct (run es (init 0 0)) as [[w out]|] eqn:H; [|discriminate].
  intros _. eapply run_reachable; [apply reach_init|exact H].
Qed.

(* ------------------------------------------------------------------ *)
(** ** The readiness line *)

(** A chunk without both markers changes nothing. *)
Lemma other_line_no_change data w :
  includes marker_done data && includes marker_help data = false ->
  on_stdout data w = (w, []).
Proof.
  intros H. unfold on_stdout. rewrite is_ready_line_trim, H. reflexivity.
Qed.

(** Claim C2 as the code has it: a chunk of output that contains both
    markers makes the status 'online', sets [serverReady], resets
    [restartAttempts] to 0 and arms the memory sampler (an interval of
    60000 ms whose handle is stored in [memoryMonitorInterval]), whatever
    the status was when the chunk arrived. *)
Theorem ready_line_transition (w : World) (data : string) :
  includes marker_done data = true ->
  includes marker_help data = true ->
  let w' := fst (on_stdout data w) in
  serverStatus (sup w') = Online /\
  serverReady (sup w') = true /\
  restartAttempts (sup w') = 0 /\
  memoryMonitorInterval (sup w') = Some (nextTimer w) /\
  In (mkTimer (nextTimer w) (now w + 60000)%N (Some 60000%N) CbMemorySample)
     (timers w') /\
  minecraftProcess (sup w') = minecraftProcess (sup w).
Proof.
  intros Hd Hh. unfold on_stdout.
  rewrite is_ready_line_trim, Hd, Hh. cbn [andb].
  break_world w. unfold_acts. cbn.
  repeat split; try reflexivity.
  apply in_or_app. left. apply in_or_app. right. left. reflexivity.
Qed.

Lemma ready_line_transition_witness :
  let w := world_after [HttpStart; HttpStop true] in
  serverStatus (sup w) = Stopping /\
  serverStatus (sup (fst (on_stdout ready_line w))) = Online.
Proof.
  split; [vm_compute; reflexivity|].
  assert (Hd : includes marker_done ready_line = true)
    by (vm_compute; reflexivity).
  assert (Hh : includes marker_help ready_line = true)
    by (vm_compute; reflexivity).
  exact (proj1 (ready_line_transition
                  (world_after [HttpStart; HttpStop true]) ready_line Hd Hh)).
Defined.

(** Claim C2 as stated fails: POST /start then POST /stop leave the status
    at 'stopping'; the boot line of the child arriving then is not ignored,
    the status becomes 'online'. *)
Lemma ready_line_while_stopping_goes_online :
  exists w w' out out',
    run [HttpStart; HttpStop true] (init 0 0) = Some (w, out) /\
    serverStatus (sup w) = Stopping /\
    step (ProcStdout 0 ready_line) w = Some (w', out') /\
    serverStatus (sup w') = Online /\
    serverReady (sup w') = true /\
    sup w' <> sup w.
Proof.
  destruct (run [HttpStart; HttpStop true] (init 0 0)) as [[w out]|] eqn:E;
    [|discriminate].
  cbv in E. injection E as <- <-.
  eexists _, _, _, _. split; [reflexivity|]. split; [reflexivity|].
  split; [reflexivity|]. split; [reflexivity|]. split; [reflexivity|].
  cbn. discriminate.
Qed.

(* ------------------------------------------------------------------ *)
(** ** POST /start *)

(** Claim C8: while the status is 'starting' or 'online', POST /start
    answers [success: false] and does nothing else: the world is unchanged
    and the answer is the only effect. *)
Theorem start_rejected_when_running (w : World) :
  serverStatus (sup w) = Starting \/ serverStatus (sup w) = Online ->
  start_route w =
  (w, [ERespond (Reply false "Server is already starting or running" None)]).
Proof.
  intros [H|H]; unfold start_route; rewrite H; reflexivity.
Qed.

Lemma start_rejected_when_running_witness :
  start_route (world_after [HttpStart]) =
  (world_after [HttpStart],
   [ERespond (Reply false "Server is already starting or running" None)]).
Proof.
  apply (start_rejected_when_running (world_after [HttpStart])).
  left. reflexivity.
Defined.

(** Claim C10: with a non-null handle and a status that is neither
    'starting' nor 'online' (so 'stopping', or 'offline' after a launch
    error), POST /start answers [success: true, status: 'starting'], and
    that answer is its only effect: no child is spawned and no field of the
    supervisor changes, [startMinecraftServer] returns at its first test. *)
Theorem start_while_stopping_is_ignored (w : World) (p : Pid) :
  minecraftProcess (sup w) = Some p ->
  serverStatus (sup w) <> Starting ->
  serverStatus (sup w) <> Online ->
  start_route w =
  (w, [ERespond (Reply true "Server is starting with memory optimization..."
                       (Some "starting"))]).
Proof.
  intros Hp Hs Ho. unfold start_route.
  apply status_eqb_neq in Hs, Ho. rewrite Hs, Ho. cbn [orb].
  unfold seq, startMinecraftServer. rewrite Hp. reflexivity.
Qed.

Lemma start_while_stopping_is_ignored_witness :
  let w := world_after [HttpStart; ProcStdout 0 ready_line; HttpStop true] in
  serverStatus (sup w) = Stopping /\
  start_route w =
  (w, [ERespond (Reply true "Server is starting with memory optimization..."
                       (Some "starting"))]).
Proof.
  split; [reflexivity|].
  apply (start_while_stopping_is_ignored
           (world_after [HttpStart; ProcStdout 0 ready_line; HttpStop true]) 0);
    [reflexivity|discriminate|discriminate].
Defined.

(* ------------------------------------------------------------------ *)
(** ** POST /command and [executeCommand] *)

Lemma online_world_reachable : reachable online_world.
Proof. apply world_after_reachable. vm_compute. reflexivity. Qed.







(* ------------------------------------------------------------------ *)
(** ** [stopMinecraftServer] and [serverReady] *)

(** While the handle is non-null, only the 'error' and 'close' listeners
    take [serverReady] from true to false. *)
Lemma ready_cleared_only_by_exit_or_error e w :
  minecraftProcess (sup w) <> None ->
  serverReady (sup w) = true ->
  serverReady (sup (fst (handle e w))) = false ->
  is_exit_or_error e = true.
Proof.
  intros Hp Hr Hf.
  destruct e; try reflexivity; exfalso;
    break_world w; cbn in *; subst; unfold_acts; cbn in *;
    revert Hf; repeat (break_match; cbn in *); try congruence.
Qed.

(** In the 'stopping' phase with a live child, an event that is neither
    the exit or error of the child nor a readiness line leaves the status,
    [serverReady] and the handle as they are. *)
Lemma stopping_step e w :
  minecraftProcess (sup w) <> None ->
  serverStatus (sup w) = Stopping ->
  ends_stopping e = false ->
  serverStatus (sup (fst (handle e w))) = Stopping /\
  serverReady (sup (fst (handle e w))) = serverReady (sup w) /\
  minecraftProcess (sup (fst (handle e w))) = minecraftProcess (sup w).
Proof.
  unfold ends_stopping. intros Hp Hs He.
  destruct e; try discriminate;
    break_world w; cbn in *; subst; unfold_acts; cbn in *;
    try rewrite He;
    repeat (break_match; cbn in *); try congruence;
    repeat split; reflexivity.
Qed.

Lemma stopping_run es : forall w w' out,
  minecraftProcess (sup w) <> None ->
  serverStatus (sup w) = Stopping ->
  forallb (fun e => negb (ends_stopping e)) es = true ->
  run es w = Some (w', out) ->
  serverStatus (sup w') = Stopping /\
  serverReady (sup w') = serverReady (sup w) /\
  minecraftProcess (sup w') = minecraftProcess (sup w).
Proof.
  induction es as [|e es IH]; intros w w' out Hp Hs Hes Hr; cbn in Hr.
  - injection Hr as <- _. repeat split; try assumption; reflexivity.
  - cbn in Hes. apply andb_prop in Hes as [He Hes].
    apply negb_true_iff in He.
    destruct (step e w) as [[w1 o1]|] eqn:Es; [|discriminate].
    destruct (run es w1) as [[w2 o2]|] eqn:Er; [|discriminate].
    injection Hr as <- _.
    apply step_enabled in Es as [_ Hh].
    destruct (stopping_step e w Hp Hs He) as (S1 & R1 & P1).
    rewrite Hh in S1, R1, P1. cbn in S1, R1, P1.
    assert (Hp1 : minecraftProcess (sup w1) <> None) by congruence.
    destruct (IH _ _ _ Hp1 S1 Hes Er) as (S2 & R2 & P2).
    repeat split; congruence.
Qed.

(** Claim C9 as stated fails: between the stop and the exit of the child,
    a chunk of output that holds both markers stores 'online' again.  POST
    /start, the boot line, POST /stop: GET /status reports 'stopping' with
    [ready] true; the child then prints the line once more, and GET /status
    reports 'online', while the child is still alive and has not exited. *)
Lemma ready_line_after_stop_reports_online :
  effects_of [HttpStart; ProcStdout 0 ready_line; HttpStop true; HttpStatus;
              ProcStdout 0 ready_line; HttpStatus] =
  [ESpawn 0;
   ERespond (Reply true "Server is starting with memory optimization..."
                   (Some "starting"));
   EStdinWrite 0 ("stop" ++ nl)%string;
   ERespond (Reply true "Server is stopping..." (Some "stopping"));
   ERespond (StatusReply "stopping" true true 0);
   ERespond (StatusReply "online" true true 0)] /\
  alive (world_after [HttpStart; ProcStdout 0 ready_line; HttpStop true;
                      HttpStatus; ProcStdout 0 ready_line; HttpStatus]) = [0].
Proof. split; vm_compute; reflexivity. Qed.

(** Claim C9 as the code has it: [stopMinecraftServer] on a live child
    stores 'stopping' and leaves [serverReady] and the handle as they
    were, so GET /status then reports status 'stopping' with the old
    [ready] (true if the server was online), and goes on reporting both
    through every sequence of events that holds neither the exit or error
    of the child nor one more readiness line; such a line stores 'online'
    and [serverReady] true again.  [serverReady] can only be cleared by the
    'close' or the 'error' event of the child. *)
Theorem stop_keeps_serverReady (w : World) (p : Pid) (write_ok : bool) :
  minecraftProcess (sup w) = Some p ->
  let w1 := fst (stopMinecraftServer write_ok w) in
  serverStatus (sup w1) = Stopping /\
  serverReady (sup w1) = serverReady (sup w) /\
  minecraftProcess (sup w1) = Some p /\
  snd (status_route w1) =
    [ERespond (StatusReply "stopping" true (serverReady (sup w)) (uptime w1))] /\
  (forall es w2 out,
     forallb (fun e => negb (ends_stopping e)) es = true ->
     run es w1 = Some (w2, out) ->
     snd (status_route w2) =
       [ERespond (StatusReply "stopping" true (serverReady (sup w))
                              (uptime w2))]) /\
  (forall e,
     is_ready_chunk e = true ->
     serverStatus (sup (fst (handle e w1))) = Online /\
     serverReady (sup (fst (handle e w1))) = true /\
     minecraftProcess (sup (fst (handle e w1))) = Some p) /\
  (forall e,
     serverReady (sup w1) = true ->
     serverReady (sup (fst (handle e w1))) = false ->
     is_exit_or_error e = true).
Proof.
  intros Hp. cbv zeta.
  assert (H : serverStatus (sup (fst (stopMinecraftServer write_ok w))) = Stopping /\
              serverReady (sup (fst (stopMinecraftServer write_ok w))) = serverReady (sup w) /\
              minecraftProcess (sup (fst (stopMinecraftServer write_ok w))) = Some p).
  { break_world w. cbn in Hp. subst. unfold_acts. cbn.
    repeat (break_match; cbn); repeat split; reflexivity. }
  destruct H as (Hs & Hr & Hp').
  split; [exact Hs|]. split; [exact Hr|]. split; [exact Hp'|].
  split; [|split; [|split]].
  - unfold status_route, emit. cbn [snd]. rewrite Hs, Hr, Hp'. reflexivity.
  - intros es w2 out Hes Hrun.
    assert (Hp1 : minecraftProcess
                    (sup (fst (stopMinecraftServer write_ok w))) <> None)
      by congruence.
    destruct (stopping_run es _ _ _ Hp1 Hs Hes Hrun) as (S2 & R2 & P2).
    unfold status_route, emit. cbn [snd].
    rewrite S2, R2, P2, Hr, Hp'. reflexivity.
  - intros e He. destruct e; try discriminate He. cbn in He.
    cbn [handle]. unfold on_stdout. rewrite He.
    rewrite <- Hp'.
    generalize (fst (stopMinecraftServer write_ok w)). intros w1.
    break_world w1. unfold_acts. cbn. repeat split; reflexivity.
  - intros e. apply ready_cleared_only_by_exit_or_error. congruence.
Qed.

Lemma stop_keeps_serverReady_witness :
  let w1 := fst (stopMinecraftServer true online_world) in
  serverStatus (sup w1) = Stopping /\ serverReady (sup w1) = true /\
  snd (status_route w1) = [ERespond (StatusReply "stopping" true true 0)].
Proof.
  pose proof (stop_keeps_serverReady online_world 0 true eq_refl) as H.
  cbv zeta in H. destruct H as (Hs & Hr & _ & Hq & _ & _ & _).
  split; [exact Hs|]. split; [exact Hr|exact Hq].
Defined.

(* ------------------------------------------------------------------ *)
(** ** The 'close' listener *)

Lemma sampler_armed_filter i l :
  sampler_armed i (filter (fun t => negb (tid t =? i)) l) = false.
Proof.
  unfold sampler_armed. induction l as [|t l IH]; [reflexivity|].
  cbn. destruct (tid t =? i) eqn:E; cbn; [exact IH|].
  rewrite E. exact IH.
Qed.

Lemma sampler_armed_app i l l' :
  sampler_armed i (l ++ l') = sampler_armed i l || sampler_armed i l'.
Proof. apply existsb_app. Qed.

(** Whatever the world and the exit code, after the 'close' listener the
    status is 'offline', [serverReady] is false, the handle and [startTime]
    are null, the interval held in [memoryMonitorInterval] is cleared and
    the field is null.  With exit code 0, [restartAttempts] is 0
    afterwards, no timer is created (the pending ones are among those
    pending before, so no relaunch is scheduled) and the listener has no
    effect on the outside. *)
Lemma close_listener_fields (w : World) (code : option Z) :
  let w' := fst (on_close code w) in
  serverStatus (sup w') = Offline /\
  serverReady (sup w') = false /\
  minecraftProcess (sup w') = None /\
  startTime (sup w') = None /\
  memoryMonitorInterval (sup w') = None /\
  match memoryMonitorInterval (sup w) with
  | Some i => sampler_armed i (timers w') = false
  | None => True
  end /\
  let w0 := fst (on_close (Some 0%Z) w) in
  restartAttempts (sup w0) = 0 /\
  incl (timers w0) (timers w) /\
  nextTimer w0 = nextTimer w /\
  snd (on_close (Some 0%Z) w) = [].
Proof.
  cbv zeta. break_world w. unfold_acts. cbn.
  repeat (break_match; cbn); repeat split; try reflexivity;
    try apply incl_refl; try (apply incl_filter);
    try (apply sampler_armed_filter).
  all: rewrite sampler_armed_app, sampler_armed_filter.
  all: unfold sampler_armed; cbn; rewrite andb_false_r; reflexivity.
Qed.

(* ------------------------------------------------------------------ *)
(** ** Timers that stay pending *)

Lemma relaunches_app l l' :
  relaunches (l ++ l') = relaunches l ++ relaunches l'.
Proof. apply filter_app. Qed.

Lemma relaunches_filter_nil f l :
  relaunches l = [] -> relaunches (filter f l) = [].
Proof.
  unfold relaunches. induction l as [|t l IH]; [reflexivity|].
  cbn. destruct (callback_eqb (callback t) CbRelaunch) eqn:E; [discriminate|].
  intros H. destruct (f t); cbn; [rewrite E|]; auto.
Qed.

Lemma relaunches_clear i l :
  (forall t, In t l -> tid t = i -> callback t = CbMemorySample) ->
  relaunches (filter (fun t => negb (tid t =? i)) l) = relaunches l.
Proof.
  unfold relaunches. induction l as [|t l IH]; intros H; [reflexivity|].
  cbn. destruct (tid t =? i) eqn:E; cbn.
  - apply Nat.eqb_eq in E. rewrite (H t (or_introl eq_refl) E). cbn.
    apply IH. intros u Hu. apply H. right. exact Hu.
  - rewrite IH; [reflexivity|]. intros u Hu. apply H. right. exact Hu.
Qed.

Lemma relaunches_nil_callback l t :
  relaunches l = [] -> In t l -> callback t <> CbRelaunch.
Proof.
  intros Hl Hin Hc.
  assert (H : In t (relaunches l)).
  { apply filter_In. split; [exact Hin|]. rewrite Hc. reflexivity. }
  rewrite Hl in H. exact H.
Qed.

(** No event except its own firing removes a pending timeout: the only
    timers the code ever clears are memory samplers. *)
Lemma timeout_survives e w t :
  sampler_ok w -> In t (timers w) -> callback t <> CbMemorySample ->
  e <> Fire (tid t) ->
  In t (timers (fst (handle e w))).
Proof.
  unfold sampler_ok. intros Hs Hin Hc Hne.
  assert (Hclear : forall i, memoryMonitorInterval (sup w) = Some i ->
            In t (filter (fun u => negb (tid u =? i)) (timers w))).
  { intros i Hi. apply filter_In. split; [exact Hin|].
    apply negb_true_iff, Nat.eqb_neq. intros E.
    apply Hc. exact (proj2 (Hs i Hi) t Hin E). }
  assert (Hfire : forall i u, find_timer i (timers w) = Some u ->
            e = Fire i ->
            In t (filter (fun v => negb (tid v =? tid u)) (timers w))).
  { intros i u Hf He. apply find_timer_some in Hf as [_ Hu].
    apply filter_In. split; [exact Hin|].
    apply negb_true_iff, Nat.eqb_neq. intros E. apply Hne.
    rewrite He. f_equal. congruence. }
  destruct e; break_world w; cbn in *; unfold_acts; cbn in *;
    repeat (break_match; cbn in *); try assumption;
    repeat (apply in_or_app; left);
    try assumption;
    try (apply (Hclear _ eq_refl));
    match goal with
    | H : find_timer _ _ = Some _ |- _ => exact (Hfire _ _ H eq_refl)
    end.
Qed.

(* ------------------------------------------------------------------ *)
(** ** After the last automatic restart *)

Lemma quiet_step e w :
  quiet w -> is_start e = false -> enabled e w = true ->
  quiet (fst (handle e w)) /\ spawns (snd (handle e w)) = [].
Proof.
  unfold quiet, enabled. intros (Hp & Hs & Ha & Hr) Hne He.
  apply andb_prop in He as [_ He].
  assert (Hcb : forall i u, find_timer i (timers w) = Some u ->
                  callback u <> CbRelaunch).
  { intros i u Hf. apply find_timer_some in Hf as [Hin _].
    eapply relaunches_nil_callback; eassumption. }
  destruct e; try discriminate;
    break_world w; cbn in *; subst; unfold_acts; cbn in *;
    repeat (break_match; cbn in *); try discriminate;
    repeat split; try reflexivity; try assumption;
    repeat rewrite relaunches_app; cbn;
    try rewrite (relaunches_filter_nil _ _ Hr); try reflexivity;
    try match goal with
        | H : find_timer _ _ = Some ?u, E : callback ?u = CbRelaunch |- _ =>
            exfalso; exact (Hcb _ _ H E)
        end;
    try match goal with
        | E : callback ?u = _ |- context [callback ?u] =>
            rewrite E; reflexivity
        end;
    rewrite ?app_nil_r; try assumption.
Qed.

Lemma quiet_run es : forall w w' out,
  quiet w -> forallb (fun e => negb (is_start e)) es = true ->
  run es w = Some (w', out) ->
  quiet w' /\ spawns out = [].
Proof.
  induction es as [|e es IH]; intros w w' out Hq Hes Hr; cbn in Hr.
  - injection Hr as <- <-. split; [exact Hq|reflexivity].
  - cbn in Hes. apply andb_prop in Hes as [He Hes].
    apply negb_true_iff in He.
    destruct (step e w) as [[w1 o1]|] eqn:Es; [|discriminate].
    destruct (run es w1) as [[w2 o2]|] eqn:Er; [|discriminate].
    injection Hr as <- <-.
    apply step_enabled in Es as [Hen Hh].
    destruct (quiet_step e w Hq He Hen) as [Hq1 Ho1].
    rewrite Hh in Hq1, Ho1. cbn in Hq1, Ho1.
    destruct (IH _ _ _ Hq1 Hes Er) as [Hq2 Ho2].
    split; [exact Hq2|].
    unfold spawns in *. rewrite filter_app, Ho1, Ho2. reflexivity.
Qed.

(* ------------------------------------------------------------------ *)
(** ** Crash recovery *)

(** A timer can run only once its delay has elapsed. *)
Lemma fire_not_before_due t w :
  enabled (Fire (tid t)) w = true ->
  find_timer (tid t) (timers w) = Some t ->
  (due t <= now w)%N.
Proof.
  unfold enabled. intros He Hf. rewrite Hf in He.
  apply andb_prop in He as [_ He]. apply N.leb_le. exact He.
Qed.

(** Running a relaunch timer while there is no child is a start. *)
Lemma relaunch_starts t w :
  callback t = CbRelaunch -> period t = None ->
  minecraftProcess (sup w) = None ->
  snd (fire t w) = [ESpawn (nextPid w)] /\
  minecraftProcess (sup (fst (fire t w))) = Some (nextPid w) /\
  serverStatus (sup (fst (fire t w))) = Starting /\
  restartAttempts (sup (fst (fire t w))) = restartAttempts (sup w).
Proof.
  intros Hc Hp Hn. destruct t as [i d per cb]. cbn in Hc, Hp. subst.
  break_world w. cbn in Hn. subst. unfold_acts. cbn.
  repeat split; reflexivity.
Qed.

Lemma find_timer_fresh l r :
  (forall t, In t l -> tid t < tid r) ->
  find_timer (tid r) (l ++ [r]) = Some r.
Proof.
  unfold find_timer. induction l as [|t l IH]; intros H; cbn.
  - rewrite Nat.eqb_refl. reflexivity.
  - assert (E : (tid t =? tid r) = false).
    { apply Nat.eqb_neq. specialize (H t (or_introl eq_refl)). lia. }
    rewrite E. apply IH. intros u Hu. apply H. right. exact Hu.
Qed.

Lemma filter_fresh (l : list Timer) n :
  (forall t, In t l -> tid t < n) ->
  filter (fun u => negb (tid u =? n)) l = l.
Proof.
  induction l as [|t l IH]; intros H; cbn; [reflexivity|].
  assert (E : (tid t =? n) = false).
  { apply Nat.eqb_neq. specialize (H t (or_introl eq_refl)). lia. }
  rewrite E. cbn. f_equal. apply IH. intros u Hu. apply H. right. exact Hu.
Qed.

(** The world right after a crash that is followed by a relaunch. *)
Lemma close_crash_world w p code :
  wf w -> minecraftProcess (sup w) = Some p ->
  code_is_zero code = false -> restartAttempts (sup w) < 2 ->
  exists l1,
    handle (ProcClose p code) w =
    ({| sup := {| minecraftProcess := None;
                  serverStatus := Offline;
                  startTime := None;
                  serverReady := false;
                  restartAttempts := S (restartAttempts (sup w));
                  memoryMonitorInterval := None |};
        now := now w; date := date w; nextPid := nextPid w; alive := [];
        nextTimer := S (nextTimer w);
        timers := l1 ++ [mkTimer (nextTimer w) (now w + 30000)%N None CbRelaunch];
        halted := halted w |}, []) /\
    (forall t, In t l1 -> tid t < nextTimer w) /\
    relaunches l1 = relaunches (timers w).
Proof.
  intros [Ha _ _ Ht Hs] Hp Hc Hk.
  unfold alive_ok, handle_list, tids_ok, sampler_ok in *.
  apply Nat.ltb_lt in Hk.
  break_world w; cbn in *; subst. unfold_acts. cbn.
  destruct memoryMonitorInterval0 as [i|]; cbn;
    rewrite Hc; cbn; rewrite Hk; cbn; rewrite Nat.eqb_refl; cbn.
  - eexists. split; [reflexivity|]. split.
    + intros t Hin. apply filter_In in Hin as [Hin _]. auto.
    + apply relaunches_clear. apply (Hs i eq_refl).
  - eexists. split; [reflexivity|]. split; [exact Ht|reflexivity].
Qed.

(** A crash while [restartAttempts < 2], the backoff, and the relaunch:
    one child is spawned, the counter has grown by one, and no relaunch is
    left pending that was not pending before. *)
Lemma crash_then_relaunch w p code :
  wf w -> halted w = false -> minecraftProcess (sup w) = Some p ->
  code_is_zero code = false -> restartAttempts (sup w) < 2 ->
  exists w',
    run (crash_cycle p code (nextTimer w)) w =
      Some (w', [ESpawn (nextPid w)]) /\
    minecraftProcess (sup w') = Some (nextPid w) /\
    serverStatus (sup w') = Starting /\
    restartAttempts (sup w') = S (restartAttempts (sup w)) /\
    relaunches (timers w') = relaunches (timers w) /\
    nextTimer w' = S (nextTimer w) /\
    nextPid w' = S (nextPid w) /\
    halted w' = false.
Proof.
  intros Hwf Hh Hp Hc Hk.
  destruct (close_crash_world w p code Hwf Hp Hc Hk) as (l1 & E1 & Hl1 & Hr1).
  destruct Hwf as [Ha _ _ _ _]. unfold alive_ok, handle_list in Ha.
  rewrite Hp in Ha.
  set (r := mkTimer (nextTimer w) (now w + 30000)%N None CbRelaunch) in *.
  assert (Hf : find_timer (nextTimer w) (l1 ++ [r]) = Some r)
    by (apply (find_timer_fresh l1 r); exact Hl1).
  assert (Hfl : filter (fun u => negb (tid u =? nextTimer w)) (l1 ++ [r]) = l1).
  { rewrite filter_app, (filter_fresh l1 _ Hl1). cbn.
    rewrite Nat.eqb_refl. cbn. apply app_nil_r. }
  assert (En1 : enabled (ProcClose p code) w = true).
  { unfold enabled. rewrite Hh, Ha. cbn. rewrite Nat.eqb_refl. reflexivity. }
  unfold crash_cycle, run, step. rewrite En1, E1.
  unfold enabled. cbn -[N.add N.leb]. rewrite Hh. cbn -[N.add N.leb].
  rewrite Hf. cbn -[N.add N.leb]. rewrite N.leb_refl.
  unfold fire, seq, run_callback, startMinecraftServer, spawn, modify,
    with_sup, with_timers.
  cbn -[N.add N.leb]. rewrite Hfl.
  eexists. split; [reflexivity|]. cbn -[N.add N.leb].
  repeat split; try reflexivity; try assumption.
Qed.

(** The 'close' listener with an exit code other than 0, on a reachable
    world whose child is [p]. *)
Lemma crash_listener_policy (w : World) (p : Pid) (code : option Z) :
  reachable w ->
  minecraftProcess (sup w) = Some p ->
  code_is_zero code = false ->
  let w' := fst (handle (ProcClose p code) w) in
  let r := mkTimer (nextTimer w) (now w + 30000)%N None CbRelaunch in
  serverStatus (sup w') = Offline /\
  minecraftProcess (sup w') = None /\
  (restartAttempts (sup w) < 2 ->
     restartAttempts (sup w') = S (restartAttempts (sup w)) /\
     relaunches (timers w') = relaunches (timers w) ++ [r] /\
     (forall w2, enabled (Fire (tid r)) w2 = true ->
                 find_timer (tid r) (timers w2) = Some r ->
                 (now w + 30000 <= now w2)%N) /\
     (forall w2, minecraftProcess (sup w2) = None ->
                 snd (fire r w2) = [ESpawn (nextPid w2)] /\
                 serverStatus (sup (fst (fire r w2))) = Starting /\
                 restartAttempts (sup (fst (fire r w2))) =
                 restartAttempts (sup w2))) /\
  (2 <= restartAttempts (sup w) ->
     restartAttempts (sup w') = restartAttempts (sup w) /\
     relaunches (timers w') = relaunches (timers w) /\
     (relaunches (timers w) = [] ->
      forall es w3 out,
        forallb (fun e => negb (is_start e)) es = true ->
        run es w' = Some (w3, out) ->
        serverStatus (sup w3) = Offline /\
        minecraftProcess (sup w3) = None /\
        spawns out = [])).
Proof.
  intros Hreach Hp Hcode. cbv zeta.
  apply reachable_wf in Hreach. destruct Hreach as [Ha _ _ _ Hs].
  assert (Hrel : relaunches (timers (fst (stopMemoryMonitoring w))) =
                 relaunches (timers w)).
  { unfold sampler_ok in Hs. unfold stopMemoryMonitoring.
    destruct (memoryMonitorInterval (sup w)) as [i|] eqn:Ei; [|reflexivity].
    unfold_acts. cbn. apply relaunches_clear. apply (Hs i eq_refl). }
  unfold alive_ok, handle_list in Ha. rewrite Hp in Ha.
  split; [|split; [|split]].
  - break_world w. unfold_acts. cbn.
    repeat (break_match; cbn); reflexivity.
  - break_world w. unfold_acts. cbn.
    repeat (break_match; cbn); reflexivity.
  - intros Hlt. apply Nat.ltb_lt in Hlt.
    split; [|split; [|split]].
    + break_world w. cbn in *. unfold_acts. cbn. rewrite Hcode. cbn.
      repeat (break_match; cbn; try discriminate); reflexivity.
    + rewrite <- Hrel.
      break_world w. cbn in *. unfold_acts. cbn. rewrite Hcode. cbn.
      repeat (break_match; cbn; try discriminate);
        rewrite relaunches_app; reflexivity.
    + intros w2 He Hf.
      apply (fire_not_before_due _ _ He Hf).
    + intros w2 Hn.
      destruct (relaunch_starts
                  (mkTimer (nextTimer w) (now w + 30000)%N None CbRelaunch)
                  w2 eq_refl eq_refl Hn) as (H1 & _ & H3 & H4).
      auto.
  - intros Hge. apply Nat.ltb_ge in Hge.
    assert (Hcnt : restartAttempts
                     (sup (fst (handle (ProcClose p code) w))) =
                   restartAttempts (sup w)).
    { break_world w. cbn in *. unfold_acts. cbn. rewrite Hcode. cbn.
      repeat (break_match; cbn; try discriminate); reflexivity. }
    assert (Htm : relaunches (timers (fst (handle (ProcClose p code) w))) =
                  relaunches (timers w)).
    { rewrite <- Hrel.
      break_world w. cbn in *. unfold_acts. cbn. rewrite Hcode. cbn.
      repeat (break_match; cbn; try discriminate); reflexivity. }
    split; [exact Hcnt|]. split; [exact Htm|].
    intros Hnil es w3 out Hes Hrun.
    assert (Hq : quiet (fst (handle (ProcClose p code) w))).
    { unfold quiet. rewrite Htm. repeat split; try exact Hnil.
      - break_world w. unfold_acts. cbn.
        repeat (break_match; cbn); reflexivity.
      - break_world w. unfold_acts. cbn.
        repeat (break_match; cbn); reflexivity.
      - break_world w. cbn in *. subst. unfold_acts. cbn.
        repeat (break_match; cbn); try reflexivity;
          rewrite Nat.eqb_refl in *; discriminate. }
    destruct (quiet_run es _ _ _ Hq Hes Hrun) as [(H1 & H2 & _) H3].
    auto.
Qed.

Lemma run_app es1 : forall es2 w,
  run (es1 ++ es2) w =
  match run es1 w with
  | Some (w1, o1) =>
      match run es2 w1 with
      | Some (w2, o2) => Some (w2, o1 ++ o2)
      | None => None
      end
  | None => None
  end.
Proof.
  induction es1 as [|e es1 IH]; intros es2 w; cbn.
  - destruct (run es2 w) as [[w2 o2]|]; reflexivity.
  - destruct (step e w) as [[w1 o1]|]; [|reflexivity].
    rewrite IH. destruct (run es1 w1) as [[w2 o2]|]; [|reflexivity].
    destruct (run es2 w2) as [[w3 o3]|]; [|reflexivity].
    rewrite app_assoc. reflexivity.
Qed.

(** The 'close' listener calls nothing outside the supervisor. *)
Lemma close_no_effects p code w : snd (handle (ProcClose p code) w) = [].
Proof.
  break_world w. unfold_acts. cbn.
  repeat (break_match; cbn); reflexivity.
Qed.

(** The 'close' listener with an exit code other than 0, on a
    reachable world whose child is [p].  The status becomes 'offline' and
    the handle null.  If [restartAttempts < 2], the counter grows by one
    and one relaunch timer is added, due 30000 ms later; it cannot run
    earlier, and when it runs with no child present it spawns one and the
    status is 'starting'.  If [restartAttempts >= 2], the counter and the
    pending relaunch timers are unchanged, and when none was pending, no
    sequence of events without a POST /start spawns a child or leaves
    'offline'.  Hence three crashes in a row, starting with a counter of 0
    and no relaunch pending: the first two are each followed by a relaunch
    30000 ms later, the third is not, and from then on nothing but a POST
    /start spawns a child. *)
Lemma crash_policy_when_none_pending (w : World) (p : Pid)
    (code : option Z) :
  reachable w ->
  minecraftProcess (sup w) = Some p ->
  code_is_zero code = false ->
  let w' := fst (handle (ProcClose p code) w) in
  let r := mkTimer (nextTimer w) (now w + 30000)%N None CbRelaunch in
  serverStatus (sup w') = Offline /\
  minecraftProcess (sup w') = None /\
  (restartAttempts (sup w) < 2 ->
     restartAttempts (sup w') = S (restartAttempts (sup w)) /\
     relaunches (timers w') = relaunches (timers w) ++ [r] /\
     (forall w2, enabled (Fire (tid r)) w2 = true ->
                 find_timer (tid r) (timers w2) = Some r ->
                 (now w + 30000 <= now w2)%N) /\
     (forall w2, minecraftProcess (sup w2) = None ->
                 snd (fire r w2) = [ESpawn (nextPid w2)] /\
                 serverStatus (sup (fst (fire r w2))) = Starting /\
                 restartAttempts (sup (fst (fire r w2))) =
                 restartAttempts (sup w2))) /\
  (2 <= restartAttempts (sup w) ->
     restartAttempts (sup w') = restartAttempts (sup w) /\
     relaunches (timers w') = relaunches (timers w) /\
     (relaunches (timers w) = [] ->
      forall es w3 out,
        forallb (fun e => negb (is_start e)) es = true ->
        run es w' = Some (w3, out) ->
        serverStatus (sup w3) = Offline /\
        minecraftProcess (sup w3) = None /\
        spawns out = [])) /\
  (restartAttempts (sup w) = 0 -> relaunches (timers w) = [] ->
   halted w = false ->
   forall c2 c3, code_is_zero c2 = false -> code_is_zero c3 = false ->
   exists w3,
     run (crash_cycle p code (nextTimer w) ++
          crash_cycle (nextPid w) c2 (S (nextTimer w)) ++
          [ProcClose (S (nextPid w)) c3]) w =
       Some (w3, [ESpawn (nextPid w); ESpawn (S (nextPid w))]) /\
     restartAttempts (sup w3) = 2 /\
     serverStatus (sup w3) = Offline /\
     relaunches (timers w3) = [] /\
     forall es w4 out,
       forallb (fun e => negb (is_start e)) es = true ->
       run es w3 = Some (w4, out) ->
       serverStatus (sup w4) = Offline /\
       minecraftProcess (sup w4) = None /\
       spawns out = []).
Proof.
  intros Hreach Hp Hcode.
  pose proof (crash_listener_policy w p code Hreach Hp Hcode) as H.
  cbv zeta in H |- *. destruct H as (H1 & H2 & H3 & H4).
  split; [exact H1|]. split; [exact H2|]. split; [exact H3|].
  split; [exact H4|].
  intros Hk Hnil Hh c2 c3 Hc2 Hc3.
  (* first crash and relaunch *)
  assert (Hlt : restartAttempts (sup w) < 2) by (rewrite Hk; lia).
  destruct (crash_then_relaunch w p code (reachable_wf _ Hreach) Hh Hp Hcode Hlt)
    as (w1 & R1 & P1 & _ & K1 & L1 & T1 & N1 & Hh1).
  assert (Hreach1 : reachable w1) by (eapply run_reachable; eassumption).
  (* second crash and relaunch *)
  assert (Hlt1 : restartAttempts (sup w1) < 2) by (rewrite K1, Hk; lia).
  destruct (crash_then_relaunch w1 (nextPid w) c2 (reachable_wf _ Hreach1)
              Hh1 P1 Hc2 Hlt1)
    as (w2 & R2 & P2 & _ & K2 & L2 & T2 & N2 & Hh2).
  assert (Hreach2 : reachable w2) by (eapply run_reachable; eassumption).
  rewrite T1 in R2. rewrite N1 in R2, P2.
  (* third crash *)
  pose proof (crash_listener_policy w2 (S (nextPid w)) c3 Hreach2 P2 Hc3) as G.
  cbv zeta in G. destruct G as (G1 & _ & _ & G4).
  assert (Hge : 2 <= restartAttempts (sup w2)) by (rewrite K2, K1, Hk; lia).
  destruct (G4 Hge) as (G5 & G6 & G7).
  assert (Hnil2 : relaunches (timers w2) = []) by (rewrite L2, L1; exact Hnil).
  assert (En3 : enabled (ProcClose (S (nextPid w)) c3) w2 = true).
  { pose proof (wf_alive _ (reachable_wf _ Hreach2)) as Ha.
    unfold alive_ok, handle_list in Ha. rewrite P2 in Ha.
    unfold enabled. rewrite Hh2, Ha. cbn. rewrite Nat.eqb_refl. reflexivity. }
  exists (fst (handle (ProcClose (S (nextPid w)) c3) w2)).
  split; [|split; [|split; [|split]]].
  - rewrite run_app, R1, run_app, R2. cbn [run]. unfold step. rewrite En3.
    rewrite (surjective_pairing (handle (ProcClose (S (nextPid w)) c3) w2)).
    rewrite close_no_effects. reflexivity.
  - rewrite G5, K2, K1, Hk. reflexivity.
  - exact G1.
  - rewrite G6. exact Hnil2.
  - exact (G7 Hnil2).
Qed.

(** Claim C3, at the input where it fails.  The listener schedules a
    relaunch after each of the first two crashes and none after the third,
    where it prints that the server will remain offline.  But a relaunch
    is a timeout that nothing cancels.  With a POST /start right after the
    first and the second crash, the two relaunches are still pending when
    the third crash finds the counter at 2 and adds none: 30000 ms after
    the first crash one of them runs and spawns a fourth child; the status
    leaves 'offline' with no POST /start since the third crash.  The same
    happens with a single POST /start, after the first crash: the child it
    starts boots and crashes, the next two are relaunched by timers and
    crash, the third of these crashes finds the counter at 2, and a timer
    relaunches once more. *)
Theorem relaunch_after_giving_up :
  reachable (world_after impatient_restarts) /\
  restartAttempts (sup (world_after impatient_restarts)) = 2 /\
  serverStatus (sup (world_after impatient_restarts)) = Offline /\
  minecraftProcess (sup (world_after impatient_restarts)) = None /\
  timers (world_after (firstn 5 impatient_restarts)) =
    [mkTimer 0 30000%N None CbRelaunch; mkTimer 1 30000%N None CbRelaunch] /\
  timers (world_after impatient_restarts) =
    [mkTimer 0 30000%N None CbRelaunch; mkTimer 1 30000%N None CbRelaunch] /\
  spawns (effects_of (impatient_restarts ++ [Advance 30000; Fire 0])) =
    [ESpawn 0; ESpawn 1; ESpawn 2; ESpawn 3] /\
  serverStatus (sup (world_after (impatient_restarts ++
                                  [Advance 30000; Fire 0]))) = Starting /\
  (restartAttempts (sup (world_after three_crashes_unattended)) = 2 /\
   serverStatus (sup (world_after three_crashes_unattended)) = Offline /\
   relaunches (timers (world_after three_crashes_unattended)) =
     [mkTimer 4 60000%N None CbRelaunch] /\
   effects_of (three_crashes_unattended ++ [Advance 30000; Fire 4]) =
     [ESpawn 0;
      ERespond (Reply true "Server is starting with memory optimization..."
                      (Some "starting"));
      ESpawn 1;
      ERespond (Reply true "Server is starting with memory optimization..."
                      (Some "starting"));
      ESpawn 2; ESpawn 3; ESpawn 4]).
Proof.
  split; [apply world_after_reachable; vm_compute; reflexivity|].
  split; [|split; [|split; [|split; [|split; [|split; [|split]]]]]];
    try (vm_compute; reflexivity).
  split; [|split; [|split]]; vm_compute; reflexivity.
Qed.

(* ------------------------------------------------------------------ *)
(** ** The escalation timer of [stopMinecraftServer] *)




(* ------------------------------------------------------------------ *)
(** ** A sampler that outlives its child *)

(** Claim C5, at the input where it fails.  The 'close' listener calls
    [stopMemoryMonitoring], which clears the interval recorded in
    [memoryMonitorInterval] and no other.  [startMemoryMonitoring] stores
    the handle of its interval over the one the field held, without
    clearing that one.  POST /start, then the boot line seen twice: two
    samplers are armed and only the second is recorded.  After the exit of
    the child with code 0 every field of the supervisor is back at its
    initial value, and the first sampler is still armed; its closure does
    nothing while there is no child, and after the next POST /start it
    runs [ps] on the new child, a minute after the exit. *)
Theorem close_leaves_sampler_armed :
  reachable (world_after twice_ready) /\
  sup (world_after twice_ready) = init_supervisor /\
  sampler_armed 0 (timers (world_after twice_ready)) = true /\
  run_callback CbMemorySample (world_after twice_ready) =
    (world_after twice_ready, []) /\
  effects_of (twice_ready ++ [HttpStart; Advance 60000; Fire 0]) =
  [ESpawn 0;
   ERespond (Reply true "Server is starting with memory optimization..."
                   (Some "starting"));
   ESpawn 1;
   ERespond (Reply true "Server is starting with memory optimization..."
                   (Some "starting"));
   EExecPs 1].
Proof.
  split; [apply world_after_reachable; vm_compute; reflexivity|].
  split; [|split; [|split]]; vm_compute; reflexivity.
Qed.

(* ------------------------------------------------------------------ *)
(** ** Further invariants of the reachable worlds *)

Lemma attempts_step e w :
  restartAttempts (sup w) <= 2 -> restartAttempts (sup (fst (handle e w))) <= 2.
Proof.
  intros H.
  destruct e; break_world w; cbn in *; unfold_acts; cbn in *;
    repeat (break_match; cbn in *);
    repeat match goal with
      | E : (_ <=? _) = true |- _ => apply Nat.leb_le in E
      end; lia.
Qed.

Lemma ready_live_step e w : ready_live w -> ready_live (fst (handle e w)).
Proof.
  unfold ready_live. intros H.
  destruct e; break_world w; cbn in *; unfold_acts; cbn in *;
    repeat (break_match; cbn in *); subst; cbn in *;
    try discriminate; auto.
Qed.

Lemma start_time_ok_step e w :
  start_time_ok w -> start_time_ok (fst (handle e w)).
Proof.
  unfold start_time_ok. intros H1.
  destruct e; break_world w; cbn in *; unfold_acts; cbn in *;
    repeat (break_match; cbn in *); subst; cbn in *;
    intros; try discriminate; auto.
Qed.

Lemma sampler_field_ok_step e w :
  alive_ok w -> sampler_field_ok w -> enabled e w = true ->
  sampler_field_ok (fst (handle e w)).
Proof.
  unfold alive_ok, handle_list, sampler_field_ok, enabled. intros Ha H He.
  apply andb_prop in He as [_ He].
  destruct e; break_world w; cbn in *; subst; unfold_acts; cbn in *;
    repeat (break_match; cbn in *); subst; cbn in *;
    try discriminate; try congruence; auto;
    intros Hm; try congruence;
    try (split; [congruence|auto]);
    try (destruct (H Hm) as [Hp [Hs|Hs]]; split; auto; congruence);
    try (exfalso; destruct (H Hm) as [Hp _]; congruence).
Qed.


Lemma reachable_wf_more w : reachable w -> wf_more w.
Proof.
  induction 1 as [t0 d0|w e w' out Hr IH Hs].
  - split; try (cbn; lia); red; cbn; try discriminate; try congruence.
  - apply step_enabled in Hs as [He Hh].
    replace w' with (fst (handle e w)) by (rewrite Hh; reflexivity).
    destruct IH as [I1 I2 I3 I4]. split.
    + apply attempts_step, I1.
    + apply ready_live_step, I2.
    + apply start_time_ok_step, I3.
    + apply sampler_field_ok_step; try assumption.
      apply (wf_alive _ (reachable_wf _ Hr)).
Qed.

(* ------------------------------------------------------------------ *)
(** ** What the effects are about *)

Lemma handle_effect_child e w x p :
  In x (snd (handle e w)) -> effect_child x = Some p ->
  minecraftProcess (sup w) = Some p.
Proof.
  destruct e; break_world w; cbn in *; unfold_acts; cbn in *;
    repeat (break_match; cbn in *); subst;
    intros Hin Hc;
    repeat (destruct Hin as [Hin|Hin];
            [subst x; cbn in Hc; try discriminate Hc;
             try (injection Hc as <-; reflexivity)|]);
    try contradiction.
Qed.

Lemma handle_spawn e w p :
  alive_ok w -> In (ESpawn p) (snd (handle e w)) ->
  alive w = [] /\ minecraftProcess (sup w) = None /\
  alive (fst (handle e w)) = [p] /\
  minecraftProcess (sup (fst (handle e w))) = Some p.
Proof.
  unfold alive_ok, handle_list. intros Ha.
  destruct e; break_world w; cbn in *; subst; unfold_acts; cbn in *;
    repeat (break_match; cbn in *); subst;
    intros Hin;
    repeat (destruct Hin as [Hin|Hin]; [try discriminate Hin|]);
    try contradiction.
  all: injection Hin as <-; repeat split; reflexivity.
Qed.

(* ------------------------------------------------------------------ *)
(** ** POST /stop and a clean run *)

(** X6: on a reachable world POST /stop is refused exactly under status
    'offline', with no other effect; under any other status there is a
    child, the stop command is written to it (and SIGTERM sent if the
    write throws), the status becomes 'stopping', the recorded sampler is
    cleared and the forced kill is armed for 15000 ms later. *)
Theorem stop_route_reaches_child (w : World) (write_ok : bool) :
  reachable w ->
  (serverStatus (sup w) = Offline ->
   stop_route write_ok w =
   (w, [ERespond (Reply false "Server is already offline" None)])) /\
  (serverStatus (sup w) <> Offline ->
   exists p,
     minecraftProcess (sup w) = Some p /\
     snd (stop_route write_ok w) =
       stop_effects p write_ok ++
       [ERespond (Reply true "Server is stopping..." (Some "stopping"))] /\
     serverStatus (sup (fst (stop_route write_ok w))) = Stopping /\
     memoryMonitorInterval (sup (fst (stop_route write_ok w))) = None /\
     In (mkTimer (nextTimer w) (now w + 15000)%N None CbForceKill)
        (timers (fst (stop_route write_ok w)))).
Proof.
  intros Hr. apply reachable_wf in Hr. destruct Hr as [_ _ Hn _ _].
  unfold null_offline in Hn. split.
  - intros Hs. unfold stop_route. rewrite Hs. reflexivity.
  - intros Hs.
    destruct (minecraftProcess (sup w)) as [p|] eqn:Hp;
      [|exfalso; apply Hs, Hn; reflexivity].
    exists p. split; [reflexivity|].
    apply status_eqb_neq in Hs.
    break_world w. cbn in *. subst. unfold_acts. cbn. rewrite Hs. cbn.
    unfold stop_effects.
    repeat (break_match; cbn); repeat split; try reflexivity;
      apply in_or_app; right; left; reflexivity.
Qed.

Lemma run_step_some e es w w1 o1 w2 o2 :
  step e w = Some (w1, o1) -> run es w1 = Some (w2, o2) ->
  run (e :: es) w = Some (w2, o1 ++ o2).
Proof. intros H1 H2. cbn. rewrite H1, H2. reflexivity. Qed.

Lemma start_from_null w :
  minecraftProcess (sup w) = None -> serverStatus (sup w) = Offline ->
  snd (handle HttpStart w) =
    [ESpawn (nextPid w);
     ERespond (Reply true "Server is starting with memory optimization..."
                     (Some "starting"))] /\
  minecraftProcess (sup (fst (handle HttpStart w))) = Some (nextPid w) /\
  alive (fst (handle HttpStart w)) = alive w ++ [nextPid w] /\
  halted (fst (handle HttpStart w)) = halted w.
Proof.
  intros Hp Hs. break_world w. cbn in Hp, Hs. subst. unfold_acts. cbn.
  repeat split; reflexivity.
Qed.

Lemma ready_line_keeps_child w data :
  is_ready_line (trim data) = true ->
  snd (on_stdout data w) = [] /\
  serverStatus (sup (fst (on_stdout data w))) = Online /\
  minecraftProcess (sup (fst (on_stdout data w))) = minecraftProcess (sup w) /\
  alive (fst (on_stdout data w)) = alive w /\
  halted (fst (on_stdout data w)) = halted w.
Proof.
  intros H. unfold on_stdout. rewrite H. break_world w. unfold_acts. cbn.
  repeat split; reflexivity.
Qed.

Lemma stop_live_child w p write_ok :
  minecraftProcess (sup w) = Some p -> serverStatus (sup w) <> Offline ->
  snd (stop_route write_ok w) =
    stop_effects p write_ok ++
    [ERespond (Reply true "Server is stopping..." (Some "stopping"))] /\
  minecraftProcess (sup (fst (stop_route write_ok w))) = Some p /\
  alive (fst (stop_route write_ok w)) = alive w /\
  halted (fst (stop_route write_ok w)) = halted w.
Proof.
  intros Hp Hs. apply status_eqb_neq in Hs.
  break_world w. cbn in Hp, Hs. subst. unfold_acts. cbn. rewrite Hs. cbn.
  unfold stop_effects.
  repeat (break_match; cbn); repeat split; reflexivity.
Qed.

Lemma close_zero_resets w p :
  snd (handle (ProcClose p (Some 0%Z)) w) = [] /\
  sup (fst (handle (ProcClose p (Some 0%Z)) w)) = init_supervisor /\
  alive (fst (handle (ProcClose p (Some 0%Z)) w)) =
    filter (fun q => negb (q =? p)) (alive w).
Proof.
  break_world w. unfold_acts. cbn.
  repeat (break_match; cbn); repeat split; reflexivity.
Qed.

Lemma step_of_handle e w :
  enabled e w = true ->
  step e w = Some (fst (handle e w), snd (handle e w)).
Proof.
  intros H. unfold step. rewrite H. rewrite <- surjective_pairing. reflexivity.
Qed.

(** X9: from any reachable world without a child (whatever the restart
    counter), a manual start, the readiness line, a manual stop and the
    exit with code 0 produce one spawn, the stop command and the two
    answers, and leave every field of the supervisor at its initial
    value. *)
Theorem clean_lifecycle (w : World) (data : string) (write_ok : bool) :
  reachable w -> halted w = false ->
  minecraftProcess (sup w) = None ->
  includes marker_done data = true ->
  includes marker_help data = true ->
  exists w',
    run (clean_run (nextPid w) data write_ok) w =
      Some (w',
            [ESpawn (nextPid w);
             ERespond (Reply true "Server is starting with memory optimization..."
                             (Some "starting"))] ++
            stop_effects (nextPid w) write_ok ++
            [ERespond (Reply true "Server is stopping..." (Some "stopping"))]) /\
    sup w' = init_supervisor /\
    alive w' = [].
Proof.
  intros Hr Hh Hp Hd Hm.
  apply reachable_wf in Hr. destruct Hr as [Ha _ Hn _ _].
  unfold alive_ok, handle_list, null_offline in *.
  rewrite Hp in Ha. specialize (Hn Hp).
  assert (Hready : is_ready_line (trim data) = true)
    by (rewrite is_ready_line_trim, Hd, Hm; reflexivity).
  set (p := nextPid w).
  (* POST /start *)
  destruct (start_from_null w Hp Hn) as (O1 & P1 & A1 & H1).
  set (w1 := fst (handle HttpStart w)) in *.
  assert (S1 : step HttpStart w = Some (w1, snd (handle HttpStart w))).
  { apply step_of_handle. unfold enabled. rewrite Hh. reflexivity. }
  rewrite Ha in A1. cbn in A1.
  (* the readiness line *)
  destruct (ready_line_keeps_child w1 data Hready) as (O2 & St2 & P2 & A2 & H2).
  set (w2 := fst (on_stdout data w1)) in *.
  assert (S2 : step (ProcStdout p data) w1 = Some (w2, snd (on_stdout data w1))).
  { apply (step_of_handle (ProcStdout p data)). unfold enabled.
    rewrite H1, Hh, A1. cbn. fold p. rewrite Nat.eqb_refl. reflexivity. }
  (* POST /stop *)
  assert (Hne : serverStatus (sup w2) <> Offline) by (rewrite St2; discriminate).
  rewrite P1 in P2.
  destruct (stop_live_child w2 p write_ok P2 Hne) as (O3 & P3 & A3 & H3).
  set (w3 := fst (stop_route write_ok w2)) in *.
  assert (S3 : step (HttpStop write_ok) w2 = Some (w3, snd (stop_route write_ok w2))).
  { apply (step_of_handle (HttpStop write_ok)). unfold enabled.
    rewrite H2, H1, Hh. reflexivity. }
  (* the exit with code 0 *)
  destruct (close_zero_resets w3 p) as (O4 & Sup4 & A4).
  set (w4 := fst (handle (ProcClose p (Some 0%Z)) w3)) in *.
  assert (S4 : step (ProcClose p (Some 0%Z)) w3 =
               Some (w4, snd (handle (ProcClose p (Some 0%Z)) w3))).
  { apply step_of_handle. unfold enabled.
    rewrite H3, H2, H1, Hh, A3, A2, A1. cbn. fold p.
    rewrite Nat.eqb_refl. reflexivity. }
  exists w4. split; [|split].
  - unfold clean_run.
    rewrite (run_step_some _ _ _ _ _ w4
               (snd (on_stdout data w1) ++ snd (stop_route write_ok w2) ++
                snd (handle (ProcClose p (Some 0%Z)) w3) ++ []) S1).
    + rewrite O1, O2, O3, O4. cbn [app]. rewrite app_nil_r. reflexivity.
    + apply (run_step_some _ _ _ _ _ _ _ S2).
      apply (run_step_some _ _ _ _ _ _ _ S3).
      apply (run_step_some _ _ _ _ _ _ _ S4). reflexivity.
  - exact Sup4.
  - rewrite A4, A3, A2, A1. cbn. fold p. rewrite Nat.eqb_refl. reflexivity.
Qed.

(* ------------------------------------------------------------------ *)
(** ** Further properties of the supervisor *)

(** X1: on every reachable world [restartAttempts] is at most 2. *)
Theorem restart_counter_bounded (w : World) :
  reachable w -> restartAttempts (sup w) <= 2.
Proof. intros H. apply (wfm_attempts _ (reachable_wf_more _ H)). Qed.

Lemma crashed_twice_reachable : reachable crashed_twice.
Proof. apply world_after_reachable. vm_compute. reflexivity. Qed.

Lemma restart_counter_bounded_witness :
  restartAttempts (sup crashed_twice) <= 2.
Proof. apply (restart_counter_bounded crashed_twice crashed_twice_reachable). Defined.

(** X2: on every reachable world, status 'online' comes with
    [serverReady]; [serverReady] comes with status 'online' or 'stopping'
    and with a child; and any status but 'offline' comes with a child. *)
Theorem ready_only_with_live_child (w : World) :
  reachable w ->
  (serverStatus (sup w) = Online -> serverReady (sup w) = true) /\
  (serverReady (sup w) = true ->
   (serverStatus (sup w) = Online \/ serverStatus (sup w) = Stopping) /\
   minecraftProcess (sup w) <> None) /\
  (serverStatus (sup w) <> Offline -> minecraftProcess (sup w) <> None).
Proof.
  intros H.
  pose proof (reachable_wf _ H) as [_ Hr Hn _ _].
  pose proof (reachable_wf_more _ H) as [_ Hl _ _].
  unfold ready_ok, null_offline, ready_live in *.
  assert (Hc : serverStatus (sup w) <> Offline -> minecraftProcess (sup w) <> None)
    by (intros Hs Hp; apply Hs, Hn, Hp).
  split; [exact Hr|]. split; [|exact Hc].
  intros Hy. specialize (Hl Hy).
  destruct (serverStatus (sup w)) eqn:Es; try discriminate.
  - split; [left; reflexivity|]. apply Hc. discriminate.
  - split; [right; reflexivity|]. apply Hc. discriminate.
Qed.

Lemma ready_only_with_live_child_witness :
  serverReady (sup online_world) = true /\
  minecraftProcess (sup online_world) <> None.
Proof.
  pose proof (ready_only_with_live_child online_world online_world_reachable)
    as (H1 & H2 & _).
  assert (Ho : serverStatus (sup online_world) = Online)
    by (vm_compute; reflexivity).
  split; [exact (H1 Ho)|]. exact (proj2 (H2 (H1 Ho))).
Defined.

(** X3: on every reachable world at most one child is alive, and a step
    spawns a child only when none is alive and the handle is null; the new
    child is then the only one. *)
Theorem one_child_at_a_time (w : World) :
  reachable w ->
  List.length (alive w) <= 1 /\
  forall e w' out p,
    step e w = Some (w', out) -> In (ESpawn p) out ->
    alive w = [] /\ minecraftProcess (sup w) = None /\ alive w' = [p].
Proof.
  intros H. pose proof (wf_alive _ (reachable_wf _ H)) as Ha. split.
  - unfold alive_ok, handle_list in Ha. rewrite Ha.
    destruct (minecraftProcess (sup w)); cbn; lia.
  - intros e w' out p Hs Hin. apply step_enabled in Hs as [_ Hh].
    pose proof (handle_spawn e w p Ha) as L. rewrite Hh in L. cbn in L.
    destruct (L Hin) as (L1 & L2 & L3 & _). auto.
Qed.

Lemma one_child_at_a_time_witness :
  List.length (alive online_world) <= 1 /\
  forall w' out p,
    step HttpStart (init 0 0) = Some (w', out) -> In (ESpawn p) out ->
    alive w' = [p].
Proof.
  split.
  - apply (proj1 (one_child_at_a_time online_world online_world_reachable)).
  - intros w' out p Hs Hin.
    apply (proj2 (one_child_at_a_time (init 0 0) (reach_init 0 0)) HttpStart w' out p
             Hs Hin).
Defined.

(** X4: whatever a step from a reachable world writes to a child, sends it
    as a signal or asks [ps] about, that child is the one the handle
    holds, and it is alive. *)
Theorem effects_address_live_child (w : World) (e : Event) (w' : World)
    (out : list Effect) (x : Effect) (p : Pid) :
  reachable w -> step e w = Some (w', out) ->
  In x out -> effect_child x = Some p ->
  minecraftProcess (sup w) = Some p /\ alive w = [p].
Proof.
  intros H Hs Hin Hc. apply step_enabled in Hs as [_ Hh].
  assert (Hp : minecraftProcess (sup w) = Some p).
  { apply (handle_effect_child e w x p); [rewrite Hh; exact Hin|exact Hc]. }
  split; [exact Hp|].
  pose proof (wf_alive _ (reachable_wf _ H)) as Ha.
  unfold alive_ok, handle_list in Ha. rewrite Hp in Ha. exact Ha.
Qed.

Lemma effects_address_live_child_witness :
  minecraftProcess (sup online_world) = Some 0 /\ alive online_world = [0].
Proof.
  apply (effects_address_live_child online_world (HttpStop true)
           (fst (handle (HttpStop true) online_world))
           (snd (handle (HttpStop true) online_world))
           (EStdinWrite 0 ("stop" ++ nl)%string) 0 online_world_reachable).
  - vm_compute. reflexivity.
  - vm_compute. left. reflexivity.
  - reflexivity.
Defined.

(** X5: every text an event makes the code write to the child is the stop
    command, or the text of the command of a POST /command, followed by a
    line feed; that command is truthy and its [length] is below 100, so
    when it is a string it has 1 to 99 characters. *)
Theorem stdin_texts_are_commands (e : Event) (w : World) (p : Pid)
    (text : string) :
  In (EStdinWrite p text) (snd (handle e w)) ->
  allowed_stdin e text /\
  forall s ok, e = HttpCommand (js_string s) ok ->
    text = (s ++ nl)%string /\ 0 < String.length s < 100.
Proof.
  unfold allowed_stdin.
  destruct e as [| |ok|command ok|ok|q d|q d|q|q code|dt|t|i].
  4: { intros Hin.
       assert (H : exists c, is_truthy command = true /\
                     length_below_100 command = Some true /\
                     template command = Some c /\ text = (c ++ nl)%string).
       { unfold handle, command_route, executeCommand in Hin.
         destruct (negb (status_eqb (serverStatus (sup w)) Online)
                   || negb (is_truthy command)) eqn:E.
         - destruct Hin as [Hin|[]]. discriminate Hin.
         - apply orb_false_elim in E as [_ Et]. apply negb_false_iff in Et.
           rewrite Et, andb_true_r in Hin.
           destruct (minecraftProcess (sup w)) as [p0|];
             [destruct (serverReady (sup w))|];
             destruct (length_below_100 command) as [[|]|] eqn:El;
             destruct (template command) as [c|] eqn:Ex;
             cbn in Hin;
             repeat (destruct Hin as [Hin|Hin]; [try discriminate Hin|]);
             try contradiction.
           injection Hin as <- <-. exists c.
           split; [exact Et|]. split; [reflexivity|].
           split; reflexivity. }
       destruct H as (c & Ht & Hl & Hx & ->). split.
       - right. exists command, ok, c. repeat split; assumption.
       - intros s ok' E. injection E as -> _.
         cbn in Hx. injection Hx as <-. split; [reflexivity|].
         unfold js_string in Ht, Hl. cbn [is_truthy length_below_100] in Ht, Hl.
         injection Hl as Hl. apply Nat.ltb_lt in Hl.
         destruct s; [discriminate Ht|cbn in *; lia]. }
  all: intros Hin; split; [left|intros s ok' E; discriminate E].
  all: revert Hin; break_world w; cbn in *; unfold_acts; cbn in *;
    repeat (break_match; cbn in *); subst; intros Hin;
    repeat (destruct Hin as [Hin|Hin];
            [try discriminate Hin;
             try (injection Hin as <- <-; reflexivity)|]);
    try contradiction.
Qed.

Lemma stdin_texts_are_commands_witness :
  allowed_stdin (HttpCommand (js_string "say hi") true) ("say hi" ++ nl)%string /\
  0 < String.length "say hi" < 100.
Proof.
  pose proof (stdin_texts_are_commands (HttpCommand (js_string "say hi") true)
                online_world 0 ("say hi" ++ nl)%string) as H.
  assert (Hin : In (EStdinWrite 0 ("say hi" ++ nl)%string)
                   (snd (handle (HttpCommand (js_string "say hi") true)
                           online_world)))
    by (vm_compute; left; reflexivity).
  destruct (H Hin) as [H1 H2]. split; [exact H1|].
  exact (proj2 (H2 "say hi" true eq_refl)).
Defined.

Lemma stop_route_reaches_child_witness :
  snd (stop_route false online_world) =
  [EStdinWrite 0 ("stop" ++ nl)%string; EKill 0 SIGTERM;
   ERespond (Reply true "Server is stopping..." (Some "stopping"))].
Proof.
  pose proof (stop_route_reaches_child online_world false online_world_reachable)
    as [_ H].
  assert (Hs : serverStatus (sup online_world) <> Offline)
    by (vm_compute; discriminate).
  destruct (H Hs) as (p & Hp & Ho & _).
  assert (E : p = 0).
  { assert (Hq : minecraftProcess (sup online_world) = Some 0)
      by (vm_compute; reflexivity).
    rewrite Hq in Hp. injection Hp as <-. reflexivity. }
  subst p. exact Ho.
Defined.

(** X7: the handler of SIGTERM and SIGINT runs the stop of the child, if
    there is one, and arms a timeout of 5000 ms that nothing cancels; it
    cannot run earlier, and when it runs the control process exits with
    code 0, child or no child, after which no event is handled. *)
Theorem signal_exit_ceiling (w : World) (write_ok : bool) :
  let w1 := fst (on_signal write_ok w) in
  let x := mkTimer (nextTimer (fst (stopMinecraftServer write_ok w)))
                   (now w + 5000)%N None CbExit in
  In x (timers w1) /\
  snd (on_signal write_ok w) =
    match minecraftProcess (sup w) with
    | Some p => stop_effects p write_ok
    | None => []
    end /\
  (forall w2, enabled (Fire (tid x)) w2 = true ->
              find_timer (tid x) (timers w2) = Some x ->
              (now w + 5000 <= now w2)%N) /\
  (forall w2 e, reachable w2 -> In x (timers w2) -> e <> Fire (tid x) ->
                In x (timers (fst (handle e w2)))) /\
  (forall w2, halted (fst (fire x w2)) = true /\
              snd (fire x w2) = [EExit 0] /\
              sup (fst (fire x w2)) = sup w2) /\
  (forall w2 e, halted w2 = true -> step e w2 = None).
Proof.
  cbv zeta. split; [|split; [|split; [|split; [|split]]]].
  - break_world w. unfold_acts. cbn.
    repeat (break_match; cbn); apply in_or_app; right; left; reflexivity.
  - break_world w. unfold_acts. unfold stop_effects. cbn.
    repeat (break_match; cbn); reflexivity.
  - intros w2 He Hf. apply (fire_not_before_due _ _ He Hf).
  - intros w2 e Hr Hin Hne.
    apply timeout_survives; try assumption.
    + apply (wf_sampler _ (reachable_wf _ Hr)).
    + cbn. discriminate.
  - intros w2. break_world w2. unfold_acts. cbn. repeat split; reflexivity.
  - intros w2 e Hh. unfold step, enabled. rewrite Hh. reflexivity.
Qed.

Lemma signal_exit_ceiling_witness :
  In (mkTimer 3 5000%N None CbExit)
     (timers (fst (on_signal true online_world))) /\
  snd (on_signal true online_world) = [EStdinWrite 0 ("stop" ++ nl)%string] /\
  step HttpStart
    (fst (fire (mkTimer 3 5000%N None CbExit)
            (fst (on_signal true online_world)))) = None.
Proof.
  pose proof (signal_exit_ceiling online_world true) as H.
  cbv zeta in H. destruct H as (H1 & H2 & _ & _ & H5 & H6).
  split; [exact H1|]. split; [exact H2|].
  apply H6.
  assert (E : nextTimer (fst (stopMinecraftServer true online_world)) = 3)
    by (vm_compute; reflexivity).
  assert (E' : now online_world = 0%N) by (vm_compute; reflexivity).
  rewrite E, E' in H5.
  exact (proj1 (H5 (fst (on_signal true online_world)))).
Defined.

(** X8: on a reachable world without a child, GET /status answers status
    'offline', running false, ready false and uptime 0, and changes
    nothing; and under status 'offline', child or no child, the uptime it
    reports is 0, whatever the clocks read. *)
Theorem status_without_child (w : World) :
  reachable w ->
  (minecraftProcess (sup w) = None ->
   status_route w = (w, [ERespond (StatusReply "offline" false false 0)])) /\
  (serverStatus (sup w) = Offline -> uptime w = 0%Z).
Proof.
  intros H.
  pose proof (reachable_wf _ H) as [_ _ Hn _ _].
  pose proof (reachable_wf_more _ H) as [_ Hl Ht _].
  unfold start_time_ok in Ht.
  split; [|intros Hs; unfold uptime; rewrite (Ht Hs); reflexivity].
  intros Hp. unfold status_route, emit, uptime.
  unfold ready_live in Hl. rewrite (Hn Hp) in Hl.
  rewrite (Hn Hp), Hp, (Ht (Hn Hp)).
  destruct (serverReady (sup w)) eqn:Er; [|reflexivity].
  discriminate (Hl eq_refl).
Qed.

Lemma status_without_child_witness :
  status_route (world_after [ClockStep 1700000000000; HttpStart;
                             ProcStdout 0 ready_line; Advance 5000;
                             ProcClose 0 (Some 1%Z)]) =
  (world_after [ClockStep 1700000000000; HttpStart;
                ProcStdout 0 ready_line; Advance 5000;
                ProcClose 0 (Some 1%Z)],
   [ERespond (StatusReply "offline" false false 0)]) /\
  uptime (world_after [ClockStep 1700000000000; HttpStart; Advance 5000;
                       ProcError 0]) = 0%Z.
Proof.
  assert (R1 : reachable (world_after [ClockStep 1700000000000; HttpStart;
                                       ProcStdout 0 ready_line; Advance 5000;
                                       ProcClose 0 (Some 1%Z)]))
    by (apply world_after_reachable; vm_compute; reflexivity).
  assert (R2 : reachable (world_after [ClockStep 1700000000000; HttpStart;
                                       Advance 5000; ProcError 0]))
    by (apply world_after_reachable; vm_compute; reflexivity).
  split.
  - apply (proj1 (status_without_child _ R1)). vm_compute. reflexivity.
  - apply (proj2 (status_without_child _ R2)). vm_compute. reflexivity.
Defined.

Lemma clean_lifecycle_witness :
  restartAttempts (sup gave_up) = 2 /\
  exists w',
    run (clean_run 3 ready_line true) gave_up =
      Some (w',
            [ESpawn 3;
             ERespond (Reply true "Server is starting with memory optimization..."
                             (Some "starting"));
             EStdinWrite 3 ("stop" ++ nl)%string;
             ERespond (Reply true "Server is stopping..." (Some "stopping"))]) /\
    sup w' = init_supervisor.
Proof.
  split; [vm_compute; reflexivity|].
  assert (Hc : reachable gave_up)
    by (apply world_after_reachable; vm_compute; reflexivity).
  assert (Hh : halted gave_up = false) by (vm_compute; reflexivity).
  assert (Hp : minecraftProcess (sup gave_up) = None)
    by (vm_compute; reflexivity).
  assert (Hd : includes marker_done ready_line = true)
    by (vm_compute; reflexivity).
  assert (Hm : includes marker_help ready_line = true)
    by (vm_compute; reflexivity).
  destruct (clean_lifecycle gave_up ready_line true Hc Hh Hp Hd Hm)
    as (w' & R & S & _).
  exists w'. split; [|exact S].
  assert (Hn : nextPid gave_up = 3) by (vm_compute; reflexivity).
  rewrite Hn in R. exact R.
Defined.

(** X10: on every reachable world, a sampler handle is recorded in
    [memoryMonitorInterval] only while there is a child and the status is
    'online' or 'offline', never under 'starting' or 'stopping'. *)
Theorem sampler_recorded_only_with_child (w : World) :
  reachable w ->
  memoryMonitorInterval (sup w) <> None ->
  minecraftProcess (sup w) <> None /\
  (serverStatus (sup w) = Online \/ serverStatus (sup w) = Offline).
Proof. intros H. apply (wfm_sampler _ (reachable_wf_more _ H)). Qed.

Lemma sampler_recorded_only_with_child_witness :
  minecraftProcess (sup online_world) <> None /\
  (serverStatus (sup online_world) = Online \/
   serverStatus (sup online_world) = Offline).
Proof.
  apply (sampler_recorded_only_with_child online_world online_world_reachable).
  vm_compute. discriminate.
Defined.

(* ------------------------------------------------------------------ *)
(** ** The host, the memory figures and the public address *)

Module HostInfoFacts.
Import HostInfo.

Lemma scan_interface_none l :
  (forall n, In n l -> is_external_ipv4 n = false) ->
  scan_interface l = None.
Proof.
  induction l as [|n l IH]; intros H; [reflexivity|].
  cbn. rewrite (H n (or_introl eq_refl)). apply IH.
  intros m Hm. apply H. right. exact Hm.
Qed.

Lemma scan_interface_first l1 n l2 :
  (forall m, In m l1 -> is_external_ipv4 m = false) ->
  is_external_ipv4 n = true ->
  scan_interface (l1 ++ n :: l2) = Some (address n).
Proof.
  induction l1 as [|m l1 IH]; intros H Hn; cbn.
  - rewrite Hn. reflexivity.
  - rewrite (H m (or_introl eq_refl)). apply IH; [|exact Hn].
    intros k Hk. apply H. right. exact Hk.
Qed.

Lemma scan_interfaces_none l : no_external l -> scan_interfaces l = None.
Proof.
  unfold no_external. induction l as [|[name ifs] l IH]; intros H; [reflexivity|].
  cbn. rewrite scan_interface_none.
  - apply IH. intros nm i n Hi. apply (H nm i n). right. exact Hi.
  - intros n Hn. apply (H name ifs n); [left; reflexivity|exact Hn].
Qed.

(** X11: [getLocalIP] answers the address of the first interface that is
    IPv4 and not internal, in the order of the keys of the object and of
    their arrays, whatever [isKoyeb] is. *)
Theorem getLocalIP_first_external (isKoyeb : option bool)
    (before : Interfaces) (name : string)
    (l1 : list NetworkInterface) (n : NetworkInterface)
    (l2 : list NetworkInterface) (after : Interfaces) :
  no_external before ->
  (forall m, In m l1 -> is_external_ipv4 m = false) ->
  is_external_ipv4 n = true ->
  getLocalIP isKoyeb (Some (before ++ (name, l1 ++ n :: l2) :: after)) =
  address n.
Proof.
  intros Hb Hl Hn. unfold getLocalIP.
  assert (E : scan_interfaces (before ++ (name, l1 ++ n :: l2) :: after) =
              Some (address n)).
  { clear isKoyeb. induction before as [|[nm ifs] before IH]; cbn.
    - rewrite (scan_interface_first l1 n l2 Hl Hn). reflexivity.
    - rewrite scan_interface_none.
      + apply IH. intros a b c Hi. apply (Hb a b c). right. exact Hi.
      + intros m Hm. apply (Hb nm ifs m); [left; reflexivity|exact Hm]. }
  rewrite E. reflexivity.
Qed.


Lemma getLocalIP_first_external_witness :
  getLocalIP (Some true)
    (Some ([("lo", [loopback])] ++
           ("eth0", [ipv6_global] ++ lan :: [mkNetworkInterface "IPv4" false "10.0.0.8"])
           :: [])) = "10.0.0.7".
Proof.
  apply (getLocalIP_first_external (Some true) [("lo", [loopback])] "eth0"
           [ipv6_global] lan).
  - intros nm ifs m [H|[]] Hm. injection H as <- <-.
    destruct Hm as [<-|[]]. reflexivity.
  - intros m [<-|[]]. reflexivity.
  - reflexivity.
Defined.

(** X12: without an external IPv4 interface, or when the interfaces
    cannot be read, the method answers its fallback, and the constructor
    always stores 'localhost': it calls the method before [isKoyeb] is
    assigned, so the production fallback '0.0.0.0' is never the stored
    one. *)
Theorem constructor_localIP_fallback (node_env : option string)
    (interfaces : option Interfaces) :
  (interfaces = None \/ exists l, interfaces = Some l /\ no_external l) ->
  getLocalIP (Some true) interfaces = "0.0.0.0" /\
  getLocalIP (Some false) interfaces = "localhost" /\
  localIP (constructor_host node_env interfaces) = "localhost".
Proof.
  intros [->|[l [-> Hl]]]; unfold constructor_host, getLocalIP; cbn.
  - repeat split; reflexivity.
  - rewrite (scan_interfaces_none l Hl). repeat split; reflexivity.
Qed.

Lemma constructor_localIP_fallback_witness :
  isKoyeb (constructor_host (Some "production") (Some [("lo", [loopback])])) = true /\
  localIP (constructor_host (Some "production") (Some [("lo", [loopback])])) =
  "localhost".
Proof.
  split; [reflexivity|].
  apply (constructor_localIP_fallback (Some "production")
           (Some [("lo", [loopback])])).
  right. exists [("lo", [loopback])]. split; [reflexivity|].
  intros nm ifs m [H|[]] Hm. injection H as <- <-.
  destruct Hm as [<-|[]]. reflexivity.
Defined.

End HostInfoFacts.

Module MemoryUsageFacts.
Import MemoryUsage.

(** X13: the figure of [getMemoryUsage] is the number of bytes rounded to
    the nearest megabyte, halves going up, and it grows with the number of
    bytes (so a heap in use that is below the heap total is never printed
    above it). *)
Theorem megabytes_nearest (bytes : N) :
  (1048576 * megabytes bytes <= bytes + 524288 /\
   bytes + 524288 < 1048576 * (megabytes bytes + 1))%N /\
  (forall more, (bytes <= more)%N -> (megabytes bytes <= megabytes more)%N).
Proof.
  unfold megabytes. split.
  - pose proof (N.div_mod (bytes + 524288) 1048576 ltac:(discriminate)) as E.
    pose proof (N.mod_lt (bytes + 524288) 1048576 ltac:(discriminate)) as L.
    revert E L.
    generalize ((bytes + 524288) / 1048576)%N ((bytes + 524288) mod 1048576)%N.
    intros q r E L. lia.
  - intros more H. apply N.Div0.div_le_mono. lia.
Qed.

Lemma megabytes_nearest_witness :
  (megabytes 1572863 <= megabytes 1572864)%N.
Proof.
  apply (proj2 (megabytes_nearest 1572863) 1572864%N). vm_compute. discriminate.
Defined.

Lemma to_uint_nonnil n : N.to_uint n <> Decimal.Nil.
Proof.
  destruct n as [|p]; cbn; [discriminate|].
  apply DecimalPos.Unsigned.to_uint_nonnil.
Qed.

Lemma read_decimal_digits n :
  read_decimal (NilZero.string_of_uint (N.to_uint n)) = Some n.
Proof.
  unfold read_decimal.
  rewrite (NilZero.usu _ (to_uint_nonnil n)). cbn.
  rewrite DecimalN.Unsigned.of_to. reflexivity.
Qed.

Lemma megabytes_below bytes :
  (bytes < 2 ^ 53 -> megabytes bytes <= 2 ^ 33)%N.
Proof.
  assert (E53 : (2 ^ 53 = 9007199254740992)%N) by reflexivity.
  assert (E33 : (2 ^ 33 = 8589934592)%N) by reflexivity.
  rewrite E53, E33. intros H. unfold megabytes.
  apply N.lt_succ_r, N.Div0.div_lt_upper_bound. lia.
Qed.

Lemma strip_mb_app d : strip_mb (d ++ "MB") = Some d.
Proof.
  induction d as [|c d IH]; [reflexivity|].
  change (String c d ++ "MB")%string with (String c (d ++ "MB")).
  cbn [strip_mb].
  assert (E : String.eqb (String c (d ++ "MB")) "MB" = false).
  { apply String.eqb_neq. intros H. injection H as _ H.
    destruct d as [|c1 [|c2 d]]; discriminate H. }
  rewrite E, IH. reflexivity.
Qed.

(** X14: for byte counts below 2^53, each text of the answer of
    [getMemoryUsage] is a decimal numeral followed by 'MB'; it reads back
    as the rounded figure, which is at most 2^33. *)
Theorem memory_report_reads_back (u : Usage) :
  exists r h t,
    getMemoryUsage (Some u) = Figures r h t /\
    read_mb r = Some (megabytes (count (rss u))) /\
    read_mb h = Some (megabytes (count (heapUsed u))) /\
    read_mb t = Some (megabytes (count (heapTotal u))) /\
    (megabytes (count (rss u)) <= 2 ^ 33 /\
     megabytes (count (heapUsed u)) <= 2 ^ 33 /\
     megabytes (count (heapTotal u)) <= 2 ^ 33)%N.
Proof.
  eexists _, _, _. split; [reflexivity|].
  unfold read_mb, mb_text. rewrite !strip_mb_app, !read_decimal_digits.
  split; [reflexivity|]. split; [reflexivity|]. split; [reflexivity|].
  destruct u as [[r Hr] [h Hh] [t Ht]]. cbn [rss heapUsed heapTotal count].
  apply N.ltb_lt in Hr, Hh, Ht.
  split; [|split]; apply megabytes_below; assumption.
Qed.

End MemoryUsageFacts.

Lemma append_empty_r (s : string) : (s ++ "")%string = s.
Proof. induction s as [|c s IH]; cbn; [reflexivity|rewrite IH; reflexivity]. Qed.

Lemma append_assoc (a b c : string) :
  ((a ++ b) ++ c)%string = (a ++ (b ++ c))%string.
Proof. induction a as [|x a IH]; cbn; [reflexivity|rewrite IH; reflexivity]. Qed.

Module PublicIPFacts.
Import PublicIP.

Lemma fold_chunks isKoyeb chunks : forall f,
  fold_left (on_event isKoyeb) (map ResponseData chunks) f =
  mkFetch (data f ++ body_of chunks)%string (publicIP f) (destroyed f).
Proof.
  induction chunks as [|c chunks IH]; intros [d p x]; cbn.
  - rewrite append_empty_r. reflexivity.
  - rewrite IH. cbn. rewrite append_assoc. reflexivity.
Qed.

(** X15: [getPublicIP] takes KOYEB_PUBLIC_DOMAIN if it is set and not
    empty, else RAILWAY_STATIC_URL under the same condition, and then makes
    no request; otherwise the address is the body of the response, its
    chunks put together in their order and trimmed, or the fallback when
    the request fails. *)
Theorem publicIP_sources (koyeb railway : option string) (isKoyeb : bool) :
  (* a set variable wins, KOYEB_PUBLIC_DOMAIN first, and no request is made *)
  (forall request,
     truthy koyeb = true ->
     getPublicIP koyeb railway isKoyeb request = (mkFetch "" koyeb false, false)) /\
  (forall request,
     truthy koyeb = false -> truthy railway = true ->
     getPublicIP koyeb railway isKoyeb request = (mkFetch "" railway false, false)) /\
  (* otherwise the body of the response, trimmed *)
  (forall chunks,
     truthy koyeb = false -> truthy railway = false ->
     publicIP (fst (getPublicIP koyeb railway isKoyeb
                      (Some (map ResponseData chunks ++ [ResponseEnd])))) =
     Some (trim (body_of chunks))) /\
  (* or the fallback, when the request fails before any response *)
  (forall e,
     truthy koyeb = false -> truthy railway = false ->
     e = RequestError \/ e = RequestTimeout ->
     publicIP (fst (getPublicIP koyeb railway isKoyeb (Some [e]))) =
     Some (fallback isKoyeb)).
Proof.
  unfold getPublicIP, env_or. repeat split.
  - intros request Hk. rewrite Hk, Hk. reflexivity.
  - intros request Hk Hr. rewrite Hk, Hr. reflexivity.
  - intros chunks Hk Hr. rewrite Hk, Hr. cbn [fst].
    rewrite fold_left_app, fold_chunks. reflexivity.
  - intros e Hk Hr [->| ->]; rewrite Hk, Hr; reflexivity.
Qed.

Lemma publicIP_sources_witness :
  publicIP (fst (getPublicIP (Some "") (Some "mc.example.org") true None)) =
    Some "mc.example.org" /\
  publicIP (fst (getPublicIP None (Some "") false
                   (Some (map ResponseData ["203.0."; "113.9"; nl] ++ [ResponseEnd])))) =
    Some "203.0.113.9".
Proof.
  pose proof (publicIP_sources (Some "") (Some "mc.example.org") true)
    as (_ & H1 & _ & _).
  pose proof (publicIP_sources None (Some "") false) as (_ & _ & H2 & _).
  split.
  - rewrite (H1 None eq_refl eq_refl). reflexivity.
  - rewrite (H2 ["203.0."; "113.9"; nl] eq_refl eq_refl). reflexivity.
Defined.

End PublicIPFacts.

(* ------------------------------------------------------------------ *)
(** ** Downloads *)

Module DownloadFacts.
Import Download.

Lemma put_same fs p n : put fs p n p = n.
Proof. unfold put. rewrite String.eqb_refl. reflexivity. Qed.

Lemma put_other fs p n q : q <> p -> put fs p n q = fs q.
Proof. unfold put. intros H. apply String.eqb_neq in H. rewrite H. reflexivity. Qed.

Lemma discard_same fs p : discard fs p p = None.
Proof.
  unfold discard, existsSync, unlinkSync.
  destruct (fs p) eqn:E; [apply put_same|exact E].
Qed.

Lemma discard_other fs p q : q <> p -> discard fs p q = fs q.
Proof.
  unfold discard, unlinkSync. intros H.
  destruct (existsSync fs p); [apply put_other, H|reflexivity].
Qed.

Lemma existsSync_discard fs p : existsSync (discard fs p) p = false.
Proof. unfold existsSync at 1. rewrite discard_same. reflexivity. Qed.

Lemma downloadFile_other_paths accepts (answers : list Answer) :
  forall url filepath fs q, q <> filepath ->
  files (downloadFile accepts answers url filepath fs) q = fs q.
Proof.
  assert (W : forall fs filepath q, q <> filepath ->
            createWriteStream fs filepath q = fs q).
  { intros fs filepath q Hq. unfold createWriteStream. apply put_other, Hq. }
  assert (D : forall fs filepath q, q <> filepath ->
            discard (createWriteStream fs filepath) filepath q = fs q).
  { intros fs filepath q Hq. rewrite (discard_other _ _ _ Hq). apply W, Hq. }
  induction answers as [|a rest IH]; intros url filepath fs q Hq;
    cbn [downloadFile]; destruct (existsSync fs filepath); cbn;
    try reflexivity; destruct url as [u|]; cbn; try (apply W, Hq);
    destruct (accepts (client_for u) u); cbn; try (apply W, Hq).
  destruct a as [code message location body|message|]; cbn;
    try (apply D, Hq).
  destruct ((code =? 302) || (code =? 301)); cbn.
  - rewrite (IH location filepath _ q Hq). apply D, Hq.
  - destruct (negb (code =? 200)); cbn; [apply D, Hq|].
    destruct body as [b|]; cbn; [|apply D, Hq].
    rewrite (put_other _ _ _ _ Hq). apply W, Hq.
Qed.

Lemma downloadFile_resolved_exists accepts (answers : list Answer) :
  forall url filepath fs,
  outcome (downloadFile accepts answers url filepath fs) = Resolved ->
  existsSync (files (downloadFile accepts answers url filepath fs)) filepath
  = true.
Proof.
  induction answers as [|a rest IH]; intros url filepath fs;
    cbn [downloadFile]; destruct (existsSync fs filepath) eqn:E; cbn;
    try (intros _; exact E); destruct url as [u|]; cbn; try discriminate;
    destruct (accepts (client_for u) u); cbn; try discriminate.
  destruct a as [code message location body|message|]; cbn;
    try discriminate.
  destruct ((code =? 302) || (code =? 301)); cbn.
  - apply IH.
  - destruct (negb (code =? 200)); cbn; [discriminate|].
    destruct body as [b|]; cbn; [|discriminate].
    intros _. unfold existsSync. rewrite put_same. reflexivity.
Qed.

(** X16: [downloadFile] touches no other path; when it resolves the file
    exists; when it is rejected for a status, a write error, a request
    error or a timeout, the file does not exist; while no answer has come,
    and after a call on an address that is undefined or that [client.get]
    refuses, an empty file is there. *)
Theorem downloadFile_leaves (accepts : Client -> string -> bool)
    (answers : list Answer) : forall url filepath fs,
  let r := downloadFile accepts answers url filepath fs in
  (forall q, q <> filepath -> files r q = fs q) /\
  match outcome r with
  | Resolved => existsSync (files r) filepath = true
  | Rejected BadUrl => files r filepath = Some (File "")
  | Rejected InvalidUrl => files r filepath = Some (File "")
  | Rejected _ => files r filepath = None
  | Pending => files r filepath = Some (File "")
  end.
Proof.
  assert (W : forall fs filepath,
            (forall q, q <> filepath ->
                       createWriteStream fs filepath q = fs q) /\
            createWriteStream fs filepath filepath = Some (File "")).
  { intros fs filepath. unfold createWriteStream. split.
    - intros q Hq. apply put_other, Hq.
    - apply put_same. }
  induction answers as [|a rest IH]; intros url filepath fs; cbn zeta.
  - cbn [downloadFile].
    destruct (existsSync fs filepath) eqn:E; cbn.
    + split; [reflexivity|exact E].
    + destruct url as [u|]; cbn; [|apply W].
      destruct (accepts (client_for u) u); cbn; apply W.
  - cbn [downloadFile].
    destruct (existsSync fs filepath) eqn:E; cbn.
    + split; [reflexivity|exact E].
    + destruct url as [u|]; cbn; [|apply W].
      destruct (accepts (client_for u) u); cbn; [|apply W].
      destruct a as [code message location body|message|].
      * destruct ((code =? 302) || (code =? 301)) eqn:Er.
        -- specialize (IH location filepath
                          (discard (createWriteStream fs filepath) filepath)).
           cbn zeta in IH. destruct IH as [IH1 IH2]. cbn. split.
           ++ intros q Hq. rewrite (IH1 q Hq), (discard_other _ _ _ Hq).
              unfold createWriteStream. apply put_other, Hq.
           ++ exact IH2.
        -- destruct (negb (code =? 200)) eqn:E2; cbn.
           ++ split; [|apply discard_same].
              intros q Hq. rewrite (discard_other _ _ _ Hq).
              unfold createWriteStream. apply put_other, Hq.
           ++ destruct body as [b|]; cbn.
              ** split.
                 --- intros q Hq. rewrite (put_other _ _ _ _ Hq).
                     unfold createWriteStream. apply put_other, Hq.
                 --- unfold existsSync. rewrite put_same. reflexivity.
              ** split; [|apply discard_same].
                 intros q Hq. rewrite (discard_other _ _ _ Hq).
                 unfold createWriteStream. apply put_other, Hq.
      * cbn. split; [|apply discard_same].
        intros q Hq. rewrite (discard_other _ _ _ Hq).
        unfold createWriteStream. apply put_other, Hq.
      * cbn. split; [|apply discard_same].
        intros q Hq. rewrite (discard_other _ _ _ Hq).
        unfold createWriteStream. apply put_other, Hq.
Qed.

Lemma downloadFile_present accepts answers url filepath fs :
  existsSync fs filepath = true ->
  downloadFile accepts answers url filepath fs = mkResult Resolved fs [].
Proof. intros H. destruct answers; cbn; rewrite H; reflexivity. Qed.

(** X17: after a download that resolved, another download to the same
    path resolves at once, asks nothing and changes nothing. *)
Theorem second_download_is_skipped (accepts : Client -> string -> bool)
    (answers : list Answer)
    (url : option string) (filepath : string) (fs : Files) :
  outcome (downloadFile accepts answers url filepath fs) = Resolved ->
  forall answers' url',
    downloadFile accepts answers' url' filepath
      (files (downloadFile accepts answers url filepath fs)) =
    mkResult Resolved (files (downloadFile accepts answers url filepath fs)) [].
Proof.
  intros H answers' url'. apply downloadFile_present.
  apply downloadFile_resolved_exists, H.
Qed.

Lemma second_download_is_skipped_witness :
  downloadFile scheme_check [RequestTimeout] (Some paperUrl) jarPath
    (files (downloadFile scheme_check [Response 200 "OK" None (Some "jar")]
              (Some paperUrl) jarPath no_files)) =
  mkResult Resolved
    (files (downloadFile scheme_check [Response 200 "OK" None (Some "jar")]
              (Some paperUrl) jarPath no_files)) [].
Proof.
  apply (second_download_is_skipped scheme_check
           [Response 200 "OK" None (Some "jar")]
           (Some paperUrl) jarPath no_files).
  reflexivity.
Defined.

(** A call on an address that [client.get] refuses. *)
Lemma downloadFile_refused accepts answers url filepath fs :
  existsSync fs filepath = false ->
  accepts (client_for url) url = false ->
  downloadFile accepts answers (Some url) filepath fs =
  mkResult (Rejected InvalidUrl) (createWriteStream fs filepath) [].
Proof.
  intros He Ha. destruct answers; cbn [downloadFile]; rewrite He, Ha;
    reflexivity.
Qed.

(** X18: answers 302 with a Location are followed one after the other,
    any number of them, as long as [client.get] takes each address; each
    is asked with https when it starts with 'https' and with http
    otherwise, and the body of the first 200 answer is what the file
    holds.  A Location that [client.get] refuses (a relative one, for
    instance) ends the download instead: it is rejected, that address is
    not asked, and an empty file is left behind. *)
Theorem download_follows_redirects (accepts : Client -> string -> bool)
    (locations : list string) :
  forall (url : string) (filepath : string) (fs : Files),
  existsSync fs filepath = false ->
  Forall (fun u => accepts (client_for u) u = true) (url :: locations) ->
  (forall message location body rest,
     let r := downloadFile accepts
                (map redirect locations ++
                 Response 200 message location (Some body) :: rest)
                (Some url) filepath fs in
     outcome r = Resolved /\
     files r filepath = Some (File body) /\
     requests r = map (fun u => (client_for u, u)) (url :: locations)) /\
  (forall refused rest,
     accepts (client_for refused) refused = false ->
     let r := downloadFile accepts
                (map redirect locations ++ redirect refused :: rest)
                (Some url) filepath fs in
     outcome r = Rejected InvalidUrl /\
     files r filepath = Some (File "") /\
     requests r = map (fun u => (client_for u, u)) (url :: locations)).
Proof.
  induction locations as [|l locations IH];
    intros url filepath fs He Hall; cbn zeta.
  - apply Forall_inv in Hall. split.
    + intros message location body rest.
      cbn. rewrite He, Hall. cbn. repeat split. apply put_same.
    + intros refused rest Hr.
      cbn [map app downloadFile redirect]. rewrite He, Hall.
      cbn [negb Nat.eqb orb].
      rewrite (downloadFile_refused accepts rest refused filepath _
                 (existsSync_discard _ _) Hr).
      cbn. repeat split. apply put_same.
  - pose proof (Forall_inv Hall) as Hu. apply Forall_inv_tail in Hall.
    destruct (IH l filepath (discard (createWriteStream fs filepath) filepath)
                (existsSync_discard _ _) Hall) as [IA IB].
    split.
    + intros message location body rest.
      cbn [map app downloadFile redirect]. rewrite He, Hu.
      cbn [negb Nat.eqb orb].
      specialize (IA message location body rest). cbn zeta in IA.
      destruct IA as (I1 & I2 & I3).
      cbn [add_request outcome files requests].
      repeat split; try assumption.
      rewrite I3. reflexivity.
    + intros refused rest Hr.
      cbn [map app downloadFile redirect]. rewrite He, Hu.
      cbn [negb Nat.eqb orb].
      specialize (IB refused rest Hr). cbn zeta in IB.
      destruct IB as (I1 & I2 & I3).
      cbn [add_request outcome files requests].
      repeat split; try assumption.
      rewrite I3. reflexivity.
Qed.

Lemma download_follows_redirects_witness :
  requests (downloadFile scheme_check
              (map redirect ["http://mirror.example/a"; "https://cdn.example/b"] ++
               Response 200 "OK" None (Some "jar") :: [])
              (Some geyserUrl) geyserPath no_files) =
  [(Https, geyserUrl); (Http, "http://mirror.example/a");
   (Https, "https://cdn.example/b")] /\
  outcome (downloadFile scheme_check
             (map redirect ["http://mirror.example/a"] ++
              redirect "/downloads/b" :: [])
             (Some geyserUrl) geyserPath no_files) = Rejected InvalidUrl.
Proof.
  assert (A1 : Forall (fun u => scheme_check (client_for u) u = true)
                 [geyserUrl; "http://mirror.example/a"; "https://cdn.example/b"]).
  { repeat constructor. }
  assert (A2 : Forall (fun u => scheme_check (client_for u) u = true)
                 [geyserUrl; "http://mirror.example/a"]).
  { repeat constructor. }
  pose proof (download_follows_redirects scheme_check
                ["http://mirror.example/a"; "https://cdn.example/b"]
                geyserUrl geyserPath no_files eq_refl A1) as [H _].
  pose proof (download_follows_redirects scheme_check
                ["http://mirror.example/a"]
                geyserUrl geyserPath no_files eq_refl A2) as [_ G].
  specialize (H "OK" None "jar" []). cbv zeta in H.
  specialize (G "/downloads/b" [] eq_refl). cbv zeta in G.
  destruct H as (_ & _ & H). destruct G as (G & _).
  split; [rewrite H; reflexivity|exact G].
Defined.

(** X19: an answer 301 or 302 without a Location rejects the download
    and leaves an empty file behind, so that every later download to that
    path is skipped.  (When [client.get] refuses the first address the
    download is rejected before any answer, with the same file left.) *)
Theorem redirect_without_location (accepts : Client -> string -> bool)
    (code : nat) (message : string)
    (body : option string) (rest : list Answer) (url filepath : string)
    (fs : Files) :
  existsSync fs filepath = false ->
  code = 301 \/ code = 302 ->
  let r := downloadFile accepts (Response code message None body :: rest)
             (Some url) filepath fs in
  outcome r =
    Rejected (if accepts (client_for url) url then BadUrl else InvalidUrl) /\
  files r filepath = Some (File "") /\
  forall answers' url',
    downloadFile accepts answers' url' filepath (files r) =
    mkResult Resolved (files r) [].
Proof.
  intros He Hc. cbn zeta.
  assert (E : (code =? 302) || (code =? 301) = true)
    by (destruct Hc as [-> | ->]; reflexivity).
  assert (R : exists fs' l,
              downloadFile accepts (Response code message None body :: rest)
                (Some url) filepath fs =
              mkResult
                (Rejected (if accepts (client_for url) url
                           then BadUrl else InvalidUrl))
                (createWriteStream fs' filepath) l).
  { cbn [downloadFile]. rewrite He.
    destruct (accepts (client_for url) url); cbn [negb].
    - rewrite E.
      destruct rest; cbn [downloadFile]; rewrite existsSync_discard;
        eexists _, _; reflexivity.
    - eexists _, _; reflexivity. }
  destruct R as (fs' & l & R). rewrite R. cbn [outcome files].
  split; [reflexivity|]. split; [apply put_same|].
  intros answers' url'. apply downloadFile_present.
  unfold existsSync, createWriteStream. rewrite put_same. reflexivity.
Qed.

Lemma redirect_without_location_witness :
  outcome (downloadFile scheme_check [Response 302 "Found" None None]
             (Some paperUrl) jarPath no_files) = Rejected BadUrl /\
  files (downloadFile scheme_check [Response 302 "Found" None None]
           (Some paperUrl) jarPath no_files) jarPath = Some (File "").
Proof.
  pose proof (redirect_without_location scheme_check 302 "Found" None []
                paperUrl jarPath no_files eq_refl (or_intror eq_refl)) as H.
  cbv zeta in H. destruct H as (H1 & H2 & _). split; assumption.
Defined.

Lemma ensure_dir_exists fs p : existsSync (ensure_dir fs p) p = true.
Proof.
  unfold ensure_dir. destruct (existsSync fs p) eqn:E; [exact E|].
  unfold existsSync, mkdirSync. rewrite put_same. reflexivity.
Qed.

Lemma ensure_dir_other fs p q : q <> p -> ensure_dir fs p q = fs q.
Proof.
  intros H. unfold ensure_dir, mkdirSync.
  destruct (existsSync fs p); [reflexivity|apply put_other, H].
Qed.

Lemma ensure_dir_keeps fs p q :
  existsSync fs q = true -> existsSync (ensure_dir fs p) q = true.
Proof.
  intros H. unfold ensure_dir. destruct (existsSync fs p) eqn:E; [exact H|].
  unfold existsSync, mkdirSync, put in *.
  destruct (String.eqb q p); [reflexivity|exact H].
Qed.

Lemma downloadFile_keeps accepts answers url filepath fs q :
  q <> filepath -> existsSync fs q = true ->
  existsSync (files (downloadFile accepts answers url filepath fs)) q = true.
Proof.
  intros Hq H.
  unfold existsSync in *.
  rewrite (downloadFile_other_paths accepts answers url filepath fs q Hq).
  exact H.
Qed.

(** X20: when [downloadRequiredFiles] ends without a caught error, the
    two directories and the three files exist. *)
Theorem setup_done_has_all_files (accepts : Client -> string -> bool)
    (a1 a2 a3 : list Answer) (fs : Files) :
  setup (downloadRequiredFiles accepts a1 a2 a3 fs) = SetupDone None ->
  forall p, In p setup_paths ->
    existsSync (setup_files (downloadRequiredFiles accepts a1 a2 a3 fs)) p
    = true.
Proof.
  unfold downloadRequiredFiles.
  set (fs0 := ensure_dir (ensure_dir fs serverPath) pluginsPath).
  set (d1 := downloadFile accepts a1 (Some paperUrl) jarPath fs0).
  set (d2 := downloadFile accepts a2 (Some geyserUrl) geyserPath (files d1)).
  set (d3 := downloadFile accepts a3 (Some floodgateUrl) floodgatePath (files d2)).
  pose proof (downloadFile_resolved_exists accepts a1 (Some paperUrl) jarPath fs0) as L1.
  pose proof (downloadFile_resolved_exists accepts a2 (Some geyserUrl) geyserPath (files d1)) as L2.
  pose proof (downloadFile_resolved_exists accepts a3 (Some floodgateUrl) floodgatePath (files d2)) as L3.
  fold d1 in L1. fold d2 in L2. fold d3 in L3.
  destruct (outcome d1) eqn:O1; cbn; try discriminate.
  destruct (outcome d2) eqn:O2; cbn; try discriminate.
  destruct (outcome d3) eqn:O3; cbn; try discriminate.
  intros _ p Hp.
  specialize (L1 eq_refl). specialize (L2 eq_refl). specialize (L3 eq_refl).
  assert (D0 : existsSync fs0 serverPath = true /\ existsSync fs0 pluginsPath = true).
  { unfold fs0. split; [|apply ensure_dir_exists].
    apply ensure_dir_keeps, ensure_dir_exists. }
  destruct D0 as [Ds Dp].
  assert (K : forall q, q <> jarPath -> q <> geyserPath -> q <> floodgatePath ->
                existsSync fs0 q = true -> existsSync (files d3) q = true).
  { intros q N1 N2 N3 H. unfold d3, d2, d1.
    repeat (apply downloadFile_keeps; [assumption|]). exact H. }
  unfold setup_paths in Hp.
  destruct Hp as [<-|[<-|[<-|[<-|[<-|[]]]]]].
  - apply K; try discriminate. exact Ds.
  - apply K; try discriminate. exact Dp.
  - unfold d3, d2. repeat (apply downloadFile_keeps; [discriminate|]). exact L1.
  - unfold d3. apply downloadFile_keeps; [discriminate|]. exact L2.
  - exact L3.
Qed.

(** X21: when the three files are there, [downloadRequiredFiles] makes
    no request, still sleeps twice, and changes no path but the two
    directories. *)
Theorem setup_with_files_present (accepts : Client -> string -> bool)
    (a1 a2 a3 : list Answer) (fs : Files) :
  existsSync fs jarPath = true ->
  existsSync fs geyserPath = true ->
  existsSync fs floodgatePath = true ->
  let r := downloadRequiredFiles accepts a1 a2 a3 fs in
  setup r = SetupDone None /\
  setup_requests r = [] /\
  sleeps r = 2 /\
  forall q, q <> serverPath -> q <> pluginsPath -> setup_files r q = fs q.
Proof.
  intros H1 H2 H3. cbn zeta. unfold downloadRequiredFiles.
  set (fs0 := ensure_dir (ensure_dir fs serverPath) pluginsPath).
  assert (E : forall q, existsSync fs q = true -> existsSync fs0 q = true).
  { intros q H. unfold fs0. apply ensure_dir_keeps, ensure_dir_keeps, H. }
  rewrite (downloadFile_present accepts a1 _ _ fs0 (E _ H1)). cbn.
  rewrite (downloadFile_present accepts a2 _ _ fs0 (E _ H2)). cbn.
  rewrite (downloadFile_present accepts a3 _ _ fs0 (E _ H3)). cbn.
  repeat split.
  intros q Q1 Q2. unfold fs0.
  rewrite (ensure_dir_other _ _ _ Q2). apply ensure_dir_other, Q1.
Qed.

(** X22: a rejection of the first download ends [downloadRequiredFiles]:
    it is caught, no sleep follows, and nothing is asked or changed for
    the two plugins. *)
Theorem setup_stops_at_first_failure (accepts : Client -> string -> bool)
    (a1 a2 a3 : list Answer) (fs : Files) (f : Failure) :
  let fs0 := ensure_dir (ensure_dir fs serverPath) pluginsPath in
  outcome (downloadFile accepts a1 (Some paperUrl) jarPath fs0) = Rejected f ->
  let r := downloadRequiredFiles accepts a1 a2 a3 fs in
  setup r = SetupDone (Some f) /\
  setup_requests r =
    requests (downloadFile accepts a1 (Some paperUrl) jarPath fs0) /\
  sleeps r = 0 /\
  setup_files r geyserPath = fs geyserPath /\
  setup_files r floodgatePath = fs floodgatePath.
Proof.
  cbn zeta. intros H. unfold downloadRequiredFiles. rewrite H. cbn.
  pose proof (downloadFile_other_paths accepts a1 (Some paperUrl) jarPath
                (ensure_dir (ensure_dir fs serverPath) pluginsPath)) as L.
  repeat split.
  - rewrite L by discriminate.
    rewrite ensure_dir_other by discriminate. apply ensure_dir_other. discriminate.
  - rewrite L by discriminate.
    rewrite ensure_dir_other by discriminate. apply ensure_dir_other. discriminate.
Qed.

Lemma setup_done_has_all_files_witness :
  existsSync
    (setup_files
       (downloadRequiredFiles scheme_check
          [Response 200 "OK" None (Some "paper")]
          [redirect "https://cdn.example/geyser";
           Response 200 "OK" None (Some "geyser")]
          [Response 200 "OK" None (Some "floodgate")] no_files))
    geyserPath = true.
Proof.
  apply (setup_done_has_all_files scheme_check
           [Response 200 "OK" None (Some "paper")]
           [redirect "https://cdn.example/geyser";
            Response 200 "OK" None (Some "geyser")]
           [Response 200 "OK" None (Some "floodgate")] no_files).
  - vm_compute. reflexivity.
  - right. right. right. left. reflexivity.
Defined.

Lemma setup_with_files_present_witness :
  setup_requests
    (downloadRequiredFiles scheme_check
       [RequestTimeout] [] [RequestError "reset"]
       (files_present no_files)) = [].
Proof.
  pose proof (setup_with_files_present scheme_check
                [RequestTimeout] [] [RequestError "reset"]
                (files_present no_files)) as H.
  cbv zeta in H.
  assert (H1 : existsSync (files_present no_files) jarPath = true)
    by (vm_compute; reflexivity).
  assert (H2 : existsSync (files_present no_files) geyserPath = true)
    by (vm_compute; reflexivity).
  assert (H3 : existsSync (files_present no_files) floodgatePath = true)
    by (vm_compute; reflexivity).
  exact (proj1 (proj2 (H H1 H2 H3))).
Defined.

Lemma setup_stops_at_first_failure_witness :
  setup (downloadRequiredFiles scheme_check
           [Response 404 "Not Found" None None]
           [Response 200 "OK" None (Some "geyser")] [] no_files) =
    SetupDone (Some (HttpStatus 404 "Not Found")) /\
  setup_requests
    (downloadRequiredFiles scheme_check
       [Response 404 "Not Found" None None]
       [Response 200 "OK" None (Some "geyser")] [] no_files) =
    [(Https, paperUrl)].
Proof.
  pose proof (setup_stops_at_first_failure scheme_check
                [Response 404 "Not Found" None None]
                [Response 200 "OK" None (Some "geyser")] [] no_files
                (HttpStatus 404 "Not Found")) as H.
  cbv zeta in H.
  assert (E : outcome
                (downloadFile scheme_check
                   [Response 404 "Not Found" None None]
                   (Some paperUrl) jarPath
                   (ensure_dir (ensure_dir no_files serverPath) pluginsPath)) =
              Rejected (HttpStatus 404 "Not Found"))
    by (vm_compute; reflexivity).
  destruct (H E) as (H1 & H2 & _).
  split; [exact H1|]. rewrite H2. vm_compute. reflexivity.
Defined.

End DownloadFacts.
